(** * Ledger aggregation engine of contable-peru

    A shallow embedding of the report code of the bookkeeping application:
    the period resolver ([src/lib/periodUtils.ts] and the page-local copy in
    the AccountingEntries page), the journal hook
    ([src/hooks/useAccountingEntries.ts]), the entry listing, and the two
    summary statements (IncomeStatement and BalanceSheet components).

    Modelling conventions.
    - A JavaScript [number] is [Number]: an exact rational or [NaN].  Sums
      and differences are exact: binary64 rounding, overflow and the
      infinities are outside the model.
    - A [Record<string, T>] is a [gmap string T]: only the own keys written
      by the code are modelled (members inherited from [Object.prototype]
      are not), and neither is the enumeration order of the keys.
    - The Supabase client is a read-only in-memory database together with a
      health flag per table; an awaited query resolves to data, resolves to
      [{data: null, error}], or rejects.
    - [new Date()] reads a clock, modelled as a sequence of local calendar
      instants and a counter of the reads made so far. *)

From Stdlib Require Import QArith Qcanon Qcabs ZArith Ascii DecimalString.
From stdpp Require Import gmap strings list fin_maps numbers sorting.

Local Open Scope Qc_scope.
Local Open Scope string_scope.
Local Open Scope list_scope.

(** ** JavaScript numbers and values *)

Module Js.

Inductive Number : Type :=
| Finite (q : Qc)
| NaN.

Inductive Value : Type :=
| Undefined
| Null
| Bool (b : bool)
| Num (n : Number)
| Str (s : string).

Definition add (a b : Number) : Number :=
  match a, b with
  | Finite x, Finite y => Finite (x + y)
  | _, _ => NaN
  end.

Definition sub (a b : Number) : Number :=
  match a, b with
  | Finite x, Finite y => Finite (x - y)
  | _, _ => NaN
  end.

Definition neg (a : Number) : Number :=
  match a with
  | Finite x => Finite (- x)
  | NaN => NaN
  end.

(** [Math.abs]. *)
Definition abs (a : Number) : Number :=
  match a with
  | Finite x => Finite (Qcabs x)
  | NaN => NaN
  end.

(** [a < b]: false as soon as one side is [NaN]. *)
Definition lt (a b : Number) : bool :=
  match a, b with
  | Finite x, Finite y => bool_decide (x < y)
  | _, _ => false
  end.

(** [a !== b] on numbers: [NaN] differs from everything. *)
Definition strictNe (a b : Number) : bool :=
  match a, b with
  | Finite x, Finite y => negb (bool_decide (x = y))
  | _, _ => true
  end.

(** ToBoolean on a number: [0] and [NaN] are falsy. *)
Definition truthy (a : Number) : bool :=
  match a with
  | Finite x => negb (bool_decide (x = 0))
  | NaN => false
  end.

(** [a || b] on numbers. *)
Definition or (a b : Number) : Number :=
  if truthy a then a else b.

(** ToBoolean on a string: only the empty string is falsy. *)
Definition truthyString (s : string) : bool :=
  negb (bool_decide (s = "")).

Definition zero : Number := Finite 0.

#[global] Instance Number_eq_dec : EqDecision Number.
Proof. solve_decision. Defined.

(** [xs.reduce((sum, x) => sum + f(x), 0)]. *)
Definition reduceSum {A : Type} (f : A -> Number) (xs : list A) : Number :=
  fold_left (fun sum x => add sum (f x)) xs zero.

End Js.

Import Js.

(** ** Rows of the three tables read by the reports *)

Record ChartRow : Type := {
  code : string;
  name : string;
  account_type : string;
  category : string
}.

Record EntryRow : Type := {
  id : string;
  date : string;
  business_id : string;
  description : string;
  transaction_id : option string
}.

Record LineRow : Type := {
  line_id : Z;
  entry_id : string;
  account_code : string;
  account_name : string;
  debit : Value;
  credit : Value
}.

#[global] Instance Value_eq_dec : EqDecision Value.
Proof. solve_decision. Defined.

#[global] Instance ChartRow_eq_dec : EqDecision ChartRow.
Proof. solve_decision. Defined.

#[global] Instance EntryRow_eq_dec : EqDecision EntryRow.
Proof. solve_decision. Defined.

#[global] Instance LineRow_eq_dec : EqDecision LineRow.
Proof. solve_decision. Defined.

Record Database : Type := {
  chart_of_accounts : list ChartRow;
  accounting_entries : list EntryRow;
  accounting_entry_lines : list LineRow
}.

(** ** Calendar and clock

    A [Date] in local time, as read by [getFullYear], [getMonth] (0 to 11),
    [getDate] and the time of day in milliseconds. *)

Record JsDate : Type := {
  fullYear : Z;
  month : Z;
  dayOfMonth : Z;
  timeOfDay : Z
}.

Definition isLeapYear (y : Z) : bool :=
  ((y mod 4 =? 0) && negb (y mod 100 =? 0) || (y mod 400 =? 0))%Z.

Definition daysInMonth (y m : Z) : Z :=
  (if m =? 1 then (if isLeapYear y then 29 else 28)
   else if (m =? 3) || (m =? 5) || (m =? 8) || (m =? 10) then 30
   else 31)%Z.

Definition lastMillisecond : Z := 86399999%Z.

(** date-fns, on local calendar fields. *)
Definition startOfMonth (d : JsDate) : JsDate :=
  {| fullYear := fullYear d; month := month d; dayOfMonth := 1; timeOfDay := 0 |}.

Definition endOfMonth (d : JsDate) : JsDate :=
  {| fullYear := fullYear d; month := month d;
     dayOfMonth := daysInMonth (fullYear d) (month d);
     timeOfDay := lastMillisecond |}.

Definition startOfYear (d : JsDate) : JsDate :=
  {| fullYear := fullYear d; month := 0; dayOfMonth := 1; timeOfDay := 0 |}.

Definition endOfYear (d : JsDate) : JsDate :=
  {| fullYear := fullYear d; month := 11; dayOfMonth := 31;
     timeOfDay := lastMillisecond |}.

Definition startOfQuarter (d : JsDate) : JsDate :=
  {| fullYear := fullYear d; month := (month d - month d mod 3)%Z;
     dayOfMonth := 1; timeOfDay := 0 |}.

Definition endOfQuarter (d : JsDate) : JsDate :=
  let m := (month d - month d mod 3 + 2)%Z in
  {| fullYear := fullYear d; month := m;
     dayOfMonth := daysInMonth (fullYear d) m;
     timeOfDay := lastMillisecond |}.

(** [addMonths]: the day is clamped to the length of the target month and
    the time of day is kept. *)
Definition addMonths (d : JsDate) (amount : Z) : JsDate :=
  let total := (12 * fullYear d + month d + amount)%Z in
  let y := (total / 12)%Z in
  let m := (total mod 12)%Z in
  {| fullYear := y; month := m;
     dayOfMonth := Z.min (dayOfMonth d) (daysInMonth y m);
     timeOfDay := timeOfDay d |}.

Definition subMonths (d : JsDate) (amount : Z) : JsDate := addMonths d (- amount).
Definition subYears (d : JsDate) (amount : Z) : JsDate := addMonths d (- (12 * amount)).

Definition decimal (n : Z) : string := NilZero.string_of_uint (N.to_uint (Z.to_N n)).

Fixpoint zeros (n : nat) : string :=
  match n with
  | O => ""
  | S k => String "0"%char (zeros k)
  end.

(** [addLeadingZeros(n, width)] for a non-negative [n]. *)
Definition addLeadingZeros (n : Z) (width : nat) : string :=
  let digits := decimal n in
  zeros (width - String.length digits) +:+ digits.

(** [format(d, 'yyyy-MM-dd')]; [yyyy] prints the year of the era. *)
Definition format_yyyy_MM_dd (d : JsDate) : string :=
  let year := (if 0 <? fullYear d then fullYear d else 1 - fullYear d)%Z in
  addLeadingZeros year 4 +:+ "-" +:+ addLeadingZeros (month d + 1) 2
    +:+ "-" +:+ addLeadingZeros (dayOfMonth d) 2.

(** The clock: [instants n] is what the [n]-th call of [new Date()]
    returns, [reads] counts the calls made so far. *)
Record Clock : Type := {
  instants : nat -> JsDate;
  reads : nat
}.

Definition newDate (c : Clock) : JsDate * Clock :=
  (instants c (reads c), {| instants := instants c; reads := S (reads c) |}).

(** ** Period resolvers *)

Record DateRange : Type := {
  startDate : string;
  endDate : string
}.

(** [getDateRangeFromPeriod] of [lib/periodUtils.ts]; [getPeriodDates] is
    exported there as an alias of it. *)
Definition getDateRangeFromPeriod (period : string) (c : Clock) : DateRange * Clock :=
  let '(now, c) := newDate c in
  (if decide (period = "current-month") then
     {| startDate := format_yyyy_MM_dd (startOfMonth now);
        endDate := format_yyyy_MM_dd (endOfMonth now) |}
   else if decide (period = "last-month") then
     let lastMonth := subMonths now 1 in
     {| startDate := format_yyyy_MM_dd (startOfMonth lastMonth);
        endDate := format_yyyy_MM_dd (endOfMonth lastMonth) |}
   else if decide (period = "current-quarter") then
     {| startDate := format_yyyy_MM_dd (startOfQuarter now);
        endDate := format_yyyy_MM_dd (endOfQuarter now) |}
   else if decide (period = "current-year") then
     {| startDate := format_yyyy_MM_dd (startOfYear now);
        endDate := format_yyyy_MM_dd (endOfYear now) |}
   else if decide (period = "last-year") then
     let lastYear := subYears now 1 in
     {| startDate := format_yyyy_MM_dd (startOfYear lastYear);
        endDate := format_yyyy_MM_dd (endOfYear lastYear) |}
   else if decide (period = "all") then
     {| startDate := ""; endDate := "" |}
   else
     {| startDate := format_yyyy_MM_dd (startOfMonth now);
        endDate := format_yyyy_MM_dd (endOfMonth now) |},
   c).

Record PeriodDates : Type := {
  start : option string;
  end_ : option string
}.

(** The local [getPeriodDates] of the AccountingEntries page. *)
Definition getPeriodDates (period : string) (c : Clock) : PeriodDates * Clock :=
  let '(now, c) := newDate c in
  (if decide (period = "current-month") then
     {| start := Some (format_yyyy_MM_dd (startOfMonth now));
        end_ := Some (format_yyyy_MM_dd (endOfMonth now)) |}
   else if decide (period = "last-month") then
     let lastMonth := subMonths now 1 in
     {| start := Some (format_yyyy_MM_dd (startOfMonth lastMonth));
        end_ := Some (format_yyyy_MM_dd (endOfMonth lastMonth)) |}
   else if decide (period = "current-year") then
     {| start := Some (format_yyyy_MM_dd (startOfYear now));
        end_ := Some (format_yyyy_MM_dd now) |}
   else
     {| start := None; end_ := None |},
   c).

Section Engine.

(** The runtime's conversion of a string to a number (ECMAScript
    StringToNumber), which is not part of the repository: every result
    below holds whatever it answers. *)
Variable StringToNumber : string -> Number.

(** [Number(v)]. *)
Definition toNumber (v : Value) : Number :=
  match v with
  | Undefined => NaN
  | Null => Finite 0
  | Bool true => Finite 1
  | Bool false => Finite 0
  | Num n => n
  | Str s => StringToNumber s
  end.

(** ** Balance accumulator

    The body of [lines.forEach(line => ...)] in both statements. *)

(** [!balances[key]]: the key is absent, or holds [0] or [NaN]. *)
Definition unset (balances : gmap string Number) (key : string) : bool :=
  match balances !! key with
  | None => true
  | Some v => negb (truthy v)
  end.

(** [balances[key]] read as a number operand ([undefined] gives [NaN]). *)
Definition readBalance (balances : gmap string Number) (key : string) : Number :=
  match balances !! key with
  | None => NaN
  | Some v => v
  end.

Definition accumulateLine (balances : gmap string Number) (line : LineRow)
  : gmap string Number :=
  let debit := or (toNumber (debit line)) zero in
  let credit := or (toNumber (credit line)) zero in
  let balances :=
    if unset balances (account_code line)
    then <[account_code line := zero]> balances
    else balances in
  <[account_code line := add (readBalance balances (account_code line)) (sub debit credit)]>
    balances.

Definition accumulate (lines : list LineRow) : gmap string Number :=
  fold_left accumulateLine lines ∅.

(** [balances[code] || 0]. *)
Definition balanceOrZero (balances : gmap string Number) (key : string) : Number :=
  match balances !! key with
  | None => zero
  | Some v => or v zero
  end.

(** The amounts a line contributes, as exact rationals. *)
Definition amount (v : Value) : Qc :=
  match or (toNumber v) zero with
  | Finite q => q
  | NaN => 0
  end.

Definition lineDebit (line : LineRow) : Qc := amount (debit line).
Definition lineCredit (line : LineRow) : Qc := amount (credit line).
Definition lineNet (line : LineRow) : Qc := lineDebit line - lineCredit line.

Definition sumQc (qs : list Qc) : Qc := foldr Qcplus 0 qs.

(** Raw net movement of one account: Σ debit − Σ credit over its lines. *)
Definition netMovement (lines : list LineRow) (key : string) : Qc :=
  sumQc (lineNet <$> filter (fun l => account_code l = key) lines).

(** A mapping [represents] a list of lines when it holds, for exactly the
    account codes of the lines, their raw net movement. *)
Definition represents (balances : gmap string Number) (lines : list LineRow) : Prop :=
  forall key,
    balances !! key =
    if decide (key ∈ account_code <$> lines)
    then Some (Finite (netMovement lines key))
    else None.



End Engine.

(** ** The data layer: Supabase queries over the in-memory tables *)

Inductive Health : Type :=
| Healthy
| Erroring (message : string)
| Rejecting (reason : string).

Record Supabase : Type := {
  database : Database;
  chartHealth : Health;
  entriesHealth : Health;
  linesHealth : Health
}.

(** A data layer whose three tables answer. *)
Definition healthy (db : Database) : Supabase :=
  {| database := db; chartHealth := Healthy; entriesHealth := Healthy;
     linesHealth := Healthy |}.

(** The object an awaited query resolves to. *)
Record Response (A : Type) : Type := {
  data : option A;
  error : option string
}.
Arguments data {A} _.
Arguments error {A} _.

(** Completion of a piece of code: a value, or a thrown error. *)
Inductive Completion (A : Type) : Type :=
| Normal (a : A)
| Throw (e : string).
Arguments Normal {A} _.
Arguments Throw {A} _.

#[global] Instance completion_bind : MBind Completion :=
  fun A B k c =>
    match c with
    | Normal a => k a
    | Throw e => Throw e
    end.

Definition await {A : Type} (h : Health) (rows : list A) : Completion (Response (list A)) :=
  match h with
  | Healthy => Normal {| data := Some rows; error := None |}
  | Erroring m => Normal {| data := None; error := Some m |}
  | Rejecting r => Throw r
  end.

(** Filters chained on a query of [accounting_entries]. *)
Inductive EntryFilter : Type :=
| DateGte (bound : string)
| DateLte (bound : string)
| BusinessIdEq (business : string).

(** Dates are [yyyy-MM-dd] strings: their order is the order of strings. *)
Definition entryMatches (e : EntryRow) (f : EntryFilter) : bool :=
  match f with
  | DateGte bound => String.leb bound (date e)
  | DateLte bound => String.leb (date e) bound
  | BusinessIdEq business => bool_decide (business_id e = business)
  end.

Definition selectEntries (filters : list EntryFilter) (db : Database) : list EntryRow :=
  filter (fun e => forallb (entryMatches e) filters = true) (accounting_entries db).

(** [.in('entry_id', entryIds)] on [accounting_entry_lines]. *)
Definition selectLines (entryIds : list string) (db : Database) : list LineRow :=
  filter (fun l => entry_id l ∈ entryIds) (accounting_entry_lines db).

Definition codeLe (a b : ChartRow) : Prop := String.leb (code a) (code b) = true.
Definition dateGe (a b : EntryRow) : Prop := String.leb (date b) (date a) = true.

#[global] Instance codeLe_dec : RelDecision codeLe.
Proof. intros a b. unfold codeLe. apply _. Defined.

#[global] Instance dateGe_dec : RelDecision dateGe.
Proof. intros a b. unfold dateGe. apply _. Defined.

(** [.in('account_type', types).order('code')] on [chart_of_accounts]. *)
Definition selectAccounts (types : list string) (db : Database) : list ChartRow :=
  merge_sort codeLe (filter (fun a => account_type a ∈ types) (chart_of_accounts db)).

(** [businessId && businessId !== 'all']. *)
Definition businessSelected (businessId : string) : bool :=
  truthyString businessId && negb (bool_decide (businessId = "all")).

(** ** Rows of a statement *)

Module AccountBalance.
Record t : Type := {
  code : string;
  name : string;
  balance : Number;
  category : string
}.

#[global] Instance eq_dec : EqDecision t.
Proof. solve_decision. Defined.
End AccountBalance.

(** [items.reduce((acc, item) => { if (!acc[item.category]) acc[item.category] = [];
    acc[item.category].push(item); return acc; }, {})]. *)
Definition groupStep (acc : gmap string (list AccountBalance.t)) (item : AccountBalance.t)
  : gmap string (list AccountBalance.t) :=
  let acc :=
    match acc !! AccountBalance.category item with
    | None => <[AccountBalance.category item := []]> acc
    | Some _ => acc
    end in
  match acc !! AccountBalance.category item with
  | None => acc
  | Some group => <[AccountBalance.category item := group ++ [item]]> acc
  end.

Definition groupByCategory (items : list AccountBalance.t)
  : gmap string (list AccountBalance.t) :=
  fold_left groupStep items ∅.

Definition tolerance : Number := Finite (Q2Qc (1 # 100)).

Section Statements.

Variable StringToNumber : string -> Number.

(** [{code, name, balance: balances[a.code] || 0, category}]. *)
Definition debitNormal (balances : gmap string Number) (a : ChartRow) : AccountBalance.t :=
  {| AccountBalance.code := code a;
     AccountBalance.name := name a;
     AccountBalance.balance := balanceOrZero balances (code a);
     AccountBalance.category := category a |}.

(** [{code, name, balance: -(balances[a.code] || 0), category}]. *)
Definition creditNormal (balances : gmap string Number) (a : ChartRow) : AccountBalance.t :=
  {| AccountBalance.code := code a;
     AccountBalance.name := name a;
     AccountBalance.balance := neg (balanceOrZero balances (code a));
     AccountBalance.category := category a |}.

(** [accounts.filter(a => a.account_type === type).map(row).filter(a => a.balance !== 0)]. *)
Definition section (type : string) (row : ChartRow -> AccountBalance.t)
    (accounts : list ChartRow) : list AccountBalance.t :=
  filter (fun r => strictNe (AccountBalance.balance r) zero = true)
    (row <$> filter (fun a => account_type a = type) accounts).

(** The lines fetched for the candidate entries, folded into balances:
    the block guarded by [entryIds.length > 0]. *)
Definition fetchBalances (supabase : Supabase) (entryIds : list string)
  : Completion (gmap string Number) :=
  if bool_decide (0 < length entryIds)%nat then
    response ← await (linesHealth supabase) (selectLines entryIds (database supabase));
    match data response with
    | Some lines => Normal (accumulate StringToNumber lines)
    | None => Normal ∅
    end
  else Normal ∅.

(** [entries?.map(e => e.id) || []]. *)
Definition idsOf (response : Response (list EntryRow)) : list string :=
  match data response with
  | Some entries => id <$> entries
  | None => []
  end.

End Statements.

(** ** BalanceSheet component *)

Module BalanceSheet.

Record State : Type := {
  assetAccounts : list AccountBalance.t;
  liabilityAccounts : list AccountBalance.t;
  equityAccounts : list AccountBalance.t;
  loading : bool
}.

#[global] Instance State_eq_dec : EqDecision State.
Proof. solve_decision. Defined.

(** The [useState] initial values. *)
Definition initial : State :=
  {| assetAccounts := []; liabilityAccounts := []; equityAccounts := []; loading := true |}.

Definition setLoading (b : bool) (st : State) : State :=
  {| assetAccounts := assetAccounts st; liabilityAccounts := liabilityAccounts st;
     equityAccounts := equityAccounts st; loading := b |}.

Definition setAccounts (assets liabilities equity : list AccountBalance.t) (st : State)
  : State :=
  {| assetAccounts := assets; liabilityAccounts := liabilities;
     equityAccounts := equity; loading := loading st |}.

Section Load.

Variable StringToNumber : string -> Number.
Variable supabase : Supabase.
Variable clock : Clock.
Variables businessId period : string.

Definition entriesQuery (endDate : string) : list EntryFilter :=
  let query := [DateLte endDate] in
  if businessSelected businessId
  then query ++ [BusinessIdEq businessId]
  else query.

(** The ids of the entries whose lines are fetched. *)
Definition entryIds (endDate : string) : Completion (list string) :=
  response ← await (entriesHealth supabase)
               (selectEntries (entriesQuery endDate) (database supabase));
  Normal (idsOf response).

(** The body of the [try] block of [loadBalanceSheet]. *)
Definition tryBlock (st : State) : Completion State :=
  let endDate := endDate (fst (getDateRangeFromPeriod period clock)) in
  response ← await (chartHealth supabase)
               (selectAccounts ["asset"; "liability"; "equity"] (database supabase));
  match data response with
  | None => Normal (setAccounts [] [] [] st)
  | Some accounts =>
      entryIds ← entryIds endDate;
      balances ← fetchBalances StringToNumber supabase entryIds;
      let assets := section "asset" (debitNormal balances) accounts in
      let liabilities := section "liability" (creditNormal balances) accounts in
      let equity := section "equity" (creditNormal balances) accounts in
      Normal (setAccounts assets liabilities equity st)
  end.

(** [try { ... } catch (error) { console.error(...) } finally { setLoading(false) }]. *)
Definition loadBalanceSheet (st : State) : State :=
  let st := setLoading true st in
  let st :=
    match tryBlock st with
    | Normal st' => st'
    | Throw _ => st
    end in
  setLoading false st.

End Load.

Definition totalAssets (st : State) : Number :=
  reduceSum AccountBalance.balance (assetAccounts st).
Definition totalLiabilities (st : State) : Number :=
  reduceSum AccountBalance.balance (liabilityAccounts st).
Definition totalEquity (st : State) : Number :=
  reduceSum AccountBalance.balance (equityAccounts st).
Definition totalLiabilitiesAndEquity (st : State) : Number :=
  add (totalLiabilities st) (totalEquity st).

(** [Math.abs(totalAssets - totalLiabilitiesAndEquity) < 0.01]. *)
Definition balanced (st : State) : bool :=
  lt (abs (sub (totalAssets st) (totalLiabilitiesAndEquity st))) tolerance.

(** What the component shows once it is not loading. *)
Record Report : Type := {
  groupedAssets : gmap string (list AccountBalance.t);
  shownTotalAssets : Number;
  groupedLiabilities : gmap string (list AccountBalance.t);
  shownTotalLiabilities : Number;
  shownEquity : list AccountBalance.t;
  shownTotalEquity : Number;
  shownTotalLiabilitiesAndEquity : Number;
  shownBalanced : bool
}.

#[global] Instance Report_eq_dec : EqDecision Report.
Proof. solve_decision. Defined.

Definition report (st : State) : Report :=
  {| groupedAssets := groupByCategory (assetAccounts st);
     shownTotalAssets := totalAssets st;
     groupedLiabilities := groupByCategory (liabilityAccounts st);
     shownTotalLiabilities := totalLiabilities st;
     shownEquity := equityAccounts st;
     shownTotalEquity := totalEquity st;
     shownTotalLiabilitiesAndEquity := totalLiabilitiesAndEquity st;
     shownBalanced := balanced st |}.

(** [if (loading) return <Cargando...>; return <report>]. *)
Definition render (st : State) : option Report :=
  if loading st then None else Some (report st).

End BalanceSheet.

(** ** IncomeStatement component *)

Module IncomeStatement.

Record State : Type := {
  incomeAccounts : list AccountBalance.t;
  expenseAccounts : list AccountBalance.t;
  loading : bool
}.

#[global] Instance State_eq_dec : EqDecision State.
Proof. solve_decision. Defined.

Definition initial : State :=
  {| incomeAccounts := []; expenseAccounts := []; loading := true |}.

Definition setLoading (b : bool) (st : State) : State :=
  {| incomeAccounts := incomeAccounts st; expenseAccounts := expenseAccounts st;
     loading := b |}.

Definition setAccounts (income expenses : list AccountBalance.t) (st : State) : State :=
  {| incomeAccounts := income; expenseAccounts := expenses; loading := loading st |}.

Section Load.

Variable StringToNumber : string -> Number.
Variable supabase : Supabase.
Variable clock : Clock.
Variables businessId period : string.

Definition entriesQuery (range : DateRange) : list EntryFilter :=
  let query := [DateGte (startDate range); DateLte (endDate range)] in
  if businessSelected businessId
  then query ++ [BusinessIdEq businessId]
  else query.

Definition entryIds (range : DateRange) : Completion (list string) :=
  response ← await (entriesHealth supabase)
               (selectEntries (entriesQuery range) (database supabase));
  Normal (idsOf response).

(** The body of the [try] block of [loadIncomeStatement]. *)
Definition tryBlock (st : State) : Completion State :=
  let range := fst (getDateRangeFromPeriod period clock) in
  response ← await (chartHealth supabase)
               (selectAccounts ["income"; "expense"] (database supabase));
  match data response with
  | None => Normal (setAccounts [] [] st)
  | Some accounts =>
      entryIds ← entryIds range;
      balances ← fetchBalances StringToNumber supabase entryIds;
      let income := section "income" (creditNormal balances) accounts in
      let expenses := section "expense" (debitNormal balances) accounts in
      Normal (setAccounts income expenses st)
  end.

Definition loadIncomeStatement (st : State) : State :=
  let st := setLoading true st in
  let st :=
    match tryBlock st with
    | Normal st' => st'
    | Throw _ => st
    end in
  setLoading false st.

End Load.

Definition totalIncome (st : State) : Number :=
  reduceSum AccountBalance.balance (incomeAccounts st).
Definition totalExpenses (st : State) : Number :=
  reduceSum AccountBalance.balance (expenseAccounts st).
Definition netIncome (st : State) : Number :=
  sub (totalIncome st) (totalExpenses st).

Record Report : Type := {
  groupedIncome : gmap string (list AccountBalance.t);
  shownTotalIncome : Number;
  groupedExpenses : gmap string (list AccountBalance.t);
  shownTotalExpenses : Number;
  shownNetIncome : Number
}.

#[global] Instance Report_eq_dec : EqDecision Report.
Proof. solve_decision. Defined.

Definition report (st : State) : Report :=
  {| groupedIncome := groupByCategory (incomeAccounts st);
     shownTotalIncome := totalIncome st;
     groupedExpenses := groupByCategory (expenseAccounts st);
     shownTotalExpenses := totalExpenses st;
     shownNetIncome := netIncome st |}.

Definition render (st : State) : option Report :=
  if loading st then None else Some (report st).

End IncomeStatement.

(** ** The journal hook [useAccountingEntries] *)

Module AccountingEntryLine.
Record t : Type := {
  id : Z;
  account_code : string;
  account_name : string;
  debit : Number;
  credit : Number
}.
End AccountingEntryLine.

Module AccountingEntry.
Record t : Type := {
  id : string;
  date : string;
  business_id : string;
  description : string;
  transaction_id : option string;
  lines : list AccountingEntryLine.t
}.
End AccountingEntry.

Module useAccountingEntries.

Record Options : Type := {
  businessId : option string;
  startDate : option string;
  endDate : option string
}.

Section QueryFn.

Variable StringToNumber : string -> Number.
Variable supabase : Supabase.
Variable options : Options.

Definition entriesQuery : list EntryFilter :=
  let query := [] in
  let query :=
    match businessId options with
    | Some b => if businessSelected b then query ++ [BusinessIdEq b] else query
    | None => query
    end in
  let query :=
    match startDate options with
    | Some d => if truthyString d then query ++ [DateGte d] else query
    | None => query
    end in
  match endDate options with
  | Some d => if truthyString d then query ++ [DateLte d] else query
  | None => query
  end.

Definition toLine (line : LineRow) : AccountingEntryLine.t :=
  {| AccountingEntryLine.id := line_id line;
     AccountingEntryLine.account_code := account_code line;
     AccountingEntryLine.account_name := account_name line;
     AccountingEntryLine.debit := or (toNumber StringToNumber (debit line)) zero;
     AccountingEntryLine.credit := or (toNumber StringToNumber (credit line)) zero |}.

Definition withLines (lines : list LineRow) (entry : EntryRow) : AccountingEntry.t :=
  {| AccountingEntry.id := id entry;
     AccountingEntry.date := date entry;
     AccountingEntry.business_id := business_id entry;
     AccountingEntry.description := description entry;
     AccountingEntry.transaction_id := transaction_id entry;
     AccountingEntry.lines :=
       toLine <$> filter (fun line => entry_id line = id entry) lines |}.

Definition queryFn : Completion (list AccountingEntry.t) :=
  response ← await (entriesHealth supabase)
               (merge_sort dateGe (selectEntries entriesQuery (database supabase)));
  match error response with
  | Some entriesError => Throw entriesError
  | None =>
      match data response with
      | None | Some [] => Normal []
      | Some entries =>
          let entryIds := id <$> entries in
          response ← await (linesHealth supabase)
                       (selectLines entryIds (database supabase));
          match error response with
          | Some linesError => Throw linesError
          | None =>
              Normal (withLines (default [] (data response)) <$> entries)
          end
      end
  end.

End QueryFn.

End useAccountingEntries.

(** ** The AccountingEntries page *)

Module AccountingEntries.




Section Page.

Variable StringToNumber : string -> Number.
Variable supabase : Supabase.
Variable clock : Clock.
Variables selectedBusiness selectedPeriod : string.

Definition options : useAccountingEntries.Options :=
  let dates := fst (getPeriodDates selectedPeriod clock) in
  {| useAccountingEntries.businessId := Some selectedBusiness;
     useAccountingEntries.startDate := start dates;
     useAccountingEntries.endDate := end_ dates |}.


End Page.

End AccountingEntries.

(** ** Reporting scopes, in the words of the specification *)

Definition onOrBefore (d bound : string) : Prop := String.leb d bound = true.

(** The business filter, when one is given. *)
Definition ofBusiness (businessId : string) (e : EntryRow) : Prop :=
  businessSelected businessId = true -> business_id e = businessId.

(** Stock scope: every entry dated on or before [endDate]. *)
Definition stockScope (businessId endDate : string) (e : EntryRow) : Prop :=
  onOrBefore (date e) endDate /\ ofBusiness businessId e.

(** Flow scope: the entries dated within [startDate, endDate]. *)
Definition flowScope (businessId : string) (range : DateRange) (e : EntryRow) : Prop :=
  (onOrBefore (startDate range) (date e) /\ onOrBefore (date e) (endDate range))
  /\ ofBusiness businessId e.

#[global] Instance stockScope_dec b d e : Decision (stockScope b d e).
Proof. unfold stockScope, onOrBefore, ofBusiness. apply _. Defined.

#[global] Instance flowScope_dec b r e : Decision (flowScope b r e).
Proof. unfold flowScope, onOrBefore, ofBusiness. apply _. Defined.

(** The lines of the entries in scope. *)
Definition stockLines (db : Database) (businessId endDate : string) : list LineRow :=
  selectLines (id <$> filter (stockScope businessId endDate) (accounting_entries db)) db.

Definition flowLines (db : Database) (businessId : string) (range : DateRange)
  : list LineRow :=
  selectLines (id <$> filter (flowScope businessId range) (accounting_entries db)) db.




(** The five account types. *)
Definition accountTypes : list string :=
  ["asset"; "liability"; "equity"; "income"; "expense"].





(** The database with the [n]-th journal line removed. *)
Definition withoutLine (n : nat) (db : Database) : Database :=
  {| chart_of_accounts := chart_of_accounts db;
     accounting_entries := accounting_entries db;
     accounting_entry_lines := delete n (accounting_entry_lines db) |}.

(** An entry is internally balanced when the debits of its lines equal
    their credits. *)
Definition entryBalanced (StringToNumber : string -> Number) (db : Database)
    (e : EntryRow) : Prop :=
  sumQc (lineNet StringToNumber
           <$> filter (fun l => entry_id l = id e) (accounting_entry_lines db)) = 0.

Definition allEntriesBalanced (StringToNumber : string -> Number) (db : Database) : Prop :=
  Forall (entryBalanced StringToNumber db) (accounting_entries db).

(** Every journal line is posted to an asset, liability or equity account
    of the chart. *)
Definition postedToBalanceSheet (db : Database) : Prop :=
  Forall (fun l =>
            Exists (fun a => code a = account_code l
                             /\ account_type a ∈ ["asset"; "liability"; "equity"])
              (chart_of_accounts db))
    (accounting_entry_lines db).

#[global] Instance allEntriesBalanced_dec parse db : Decision (allEntriesBalanced parse db).
Proof. unfold allEntriesBalanced, entryBalanced. apply _. Defined.

#[global] Instance postedToBalanceSheet_dec db : Decision (postedToBalanceSheet db).
Proof. unfold postedToBalanceSheet. apply _. Defined.



(** A data layer whose [accounting_entries] table answers with an error. *)
Definition entriesFailing (message : string) (db : Database) : Supabase :=
  {| database := db; chartHealth := Healthy; entriesHealth := Erroring message;
     linesHealth := Healthy |}.

(** A data layer whose [accounting_entries] query rejects. *)
Definition entriesRejecting (reason : string) (db : Database) : Supabase :=
  {| database := db; chartHealth := Healthy; entriesHealth := Rejecting reason;
     linesHealth := Healthy |}.

(** The database with no journal entry. *)
Definition withoutEntries (db : Database) : Database :=
  {| chart_of_accounts := chart_of_accounts db;
     accounting_entries := [];
     accounting_entry_lines := accounting_entry_lines db |}.

(** The period tokens [getDateRangeFromPeriod] recognizes. *)
Definition recognized : list string :=
  ["current-month"; "last-month"; "current-quarter"; "current-year"; "last-year"; "all"].

(** The period tokens the page-local [getPeriodDates] recognizes. *)
Definition recognizedByPage : list string :=
  ["current-month"; "last-month"; "current-year"].

(** ** Sample data *)

Module Sample.

Definition money (n : Z) : Value := Num (Finite (Q2Qc (inject_Z n))).

Definition chart : list ChartRow :=
  [ {| code := "1011"; name := "Caja"; account_type := "asset"; category := "Activo Corriente" |};
    {| code := "4011"; name := "IGV por pagar"; account_type := "liability"; category := "Pasivo Corriente" |};
    {| code := "5011"; name := "Capital"; account_type := "equity"; category := "Patrimonio" |};
    {| code := "7011"; name := "Ventas"; account_type := "income"; category := "Ingresos" |};
    {| code := "6311"; name := "Alquileres"; account_type := "expense"; category := "Gastos" |} ].

Definition entry (i d : string) : EntryRow :=
  {| id := i; date := d; business_id := "b1"; description := "asiento";
     transaction_id := None |}.

Definition line (n : Z) (e c : string) (dr cr : Value) : LineRow :=
  {| line_id := n; entry_id := e; account_code := c; account_name := c;
     debit := dr; credit := cr |}.

(** The scenario of the specification: a cash sale and a rent payment. *)
Definition march : Database :=
  {| chart_of_accounts := chart;
     accounting_entries := [entry "E1" "2024-03-15"; entry "E2" "2024-03-20"];
     accounting_entry_lines :=
       [ line 1 "E1" "1011" (money 500) (money 0);
         line 2 "E1" "7011" (money 0) (money 500);
         line 3 "E2" "6311" (money 200) (money 0);
         line 4 "E2" "1011" (money 0) (money 200) ] |}.

(** The same journal after an opening contribution made in January. *)
Definition ledger : Database :=
  {| chart_of_accounts := chart;
     accounting_entries :=
       entry "E0" "2024-01-10" :: accounting_entries march;
     accounting_entry_lines :=
       line 5 "E0" "1011" (money 1000) (money 0)
       :: line 6 "E0" "5011" (money 0) (money 1000)
       :: accounting_entry_lines march |}.





(** A clock stuck at noon of the given day ([m] counts from 0). *)
Definition at_ (y m d : Z) : Clock :=
  {| instants := fun _ => {| fullYear := y; month := m; dayOfMonth := d;
                             timeOfDay := 43200000 |};
     reads := 0 |}.

Definition march25 : Clock := at_ 2024 2 25.

(** A runtime in which no string converts to a number. *)
Definition noStrings : string -> Number := fun _ => NaN.

Definition sheetOf (db : Database) : BalanceSheet.State :=
  BalanceSheet.loadBalanceSheet noStrings (healthy db) march25 "all" "current-month"
    BalanceSheet.initial.

Definition incomeOf (db : Database) : IncomeStatement.State :=
  IncomeStatement.loadIncomeStatement noStrings (healthy db) march25 "all" "current-month"
    IncomeStatement.initial.

Definition marchRange : DateRange := fst (getDateRangeFromPeriod "current-month" march25).





End Sample.

(** * Further definitions *)

(** ** Readings of the clock *)

(** A calendar day of the years 1 to 9999, as [new Date()] gives. *)
Definition validDate (d : JsDate) : Prop :=
  ((1 <= fullYear d <= 9999)
   /\ (0 <= month d <= 11)
   /\ (1 <= dayOfMonth d <= daysInMonth (fullYear d) (month d)))%Z.

#[global] Instance validDate_dec d : Decision (validDate d).
Proof. unfold validDate. apply _. Defined.

(** The reading a call made now gets. *)
Definition nowOf (c : Clock) : JsDate := instants c (reads c).

(** [format(now, 'yyyy-MM-dd')] for the reading a call made now gets. *)
Definition today (c : Clock) : string := format_yyyy_MM_dd (nowOf c).

(** ** Outcomes of the data layer *)

(** The awaited query resolves (with data or with an error object) instead
    of rejecting. *)
Definition answers (h : Health) : bool :=
  match h with
  | Rejecting _ => false
  | _ => true
  end.

(** The statement states with no row. *)
Definition emptySheet : BalanceSheet.State :=
  {| BalanceSheet.assetAccounts := []; BalanceSheet.liabilityAccounts := [];
     BalanceSheet.equityAccounts := []; BalanceSheet.loading := false |}.

Definition emptyIncome : IncomeStatement.State :=
  {| IncomeStatement.incomeAccounts := []; IncomeStatement.expenseAccounts := [];
     IncomeStatement.loading := false |}.

(** The entries the data layer hands to a statement: none when the query
    resolves with an error. *)
Definition fetchedEntries (supabase : Supabase) (filters : list EntryFilter) : list EntryRow :=
  match entriesHealth supabase with
  | Healthy => selectEntries filters (database supabase)
  | _ => []
  end.


(** ** Lines by the account they are posted to *)





(** Every journal line is posted to an account of the chart that has one of
    the five types. *)
Definition postedToChart (db : Database) : Prop :=
  Forall (fun l =>
            Exists (fun a => code a = account_code l /\ account_type a ∈ accountTypes)
              (chart_of_accounts db))
    (accounting_entry_lines db).

#[global] Instance postedToChart_dec db : Decision (postedToChart db).
Proof. unfold postedToChart. apply _. Defined.

(** No entry of the stock scope is older than the period. *)
Definition nothingBefore (db : Database) (businessId : string) (range : DateRange) : Prop :=
  Forall (fun e => stockScope businessId (endDate range) e -> flowScope businessId range e)
    (accounting_entries db).

#[global] Instance nothingBefore_dec db b r : Decision (nothingBefore db b r).
Proof. unfold nothingBefore. apply _. Defined.

(** ** The entry listing *)

(** The entries the journal hook asks for, in the order of the query. *)
Definition selectedEntries (db : Database) (options : useAccountingEntries.Options)
  : list EntryRow :=
  merge_sort dateGe (selectEntries (useAccountingEntries.entriesQuery options) db).

(** The error a failing table reports, if any. *)
Definition failure (h : Health) : option string :=
  match h with
  | Healthy => None
  | Erroring message => Some message
  | Rejecting reason => Some reason
  end.

(** [d] lies within the bounds the page resolved, an absent bound being no
    bound. *)
Definition withinDates (dates : PeriodDates) (d : string) : Prop :=
  (forall s, start dates = Some s -> onOrBefore s d)
  /\ (forall s, end_ dates = Some s -> onOrBefore d s).

(** ** Calendar days as strings *)

(** [(month, day)] of [d1] is not after that of [d2]. *)
Definition notAfterInYear (d1 d2 : JsDate) : Prop :=
  (month d1 < month d2 \/ (month d1 = month d2 /\ dayOfMonth d1 <= dayOfMonth d2))%Z.

(** The fields of a date that [format] prints on two digits each. *)
Definition printable (d : JsDate) : Prop :=
  ((0 <= month d <= 11) /\ (0 <= dayOfMonth d <= 99))%Z.

(** The tokens whose period holds the present day. *)
Definition presentTokens : list string :=
  ["current-month"; "current-quarter"; "current-year"].

(** ** The hooks [useInvoices] and [useTransactions] *)

Module InvoiceRow.
Record t : Type := {
  id : string;
  date : string;
  invoice_number : string;
  business_id : string;
  type : string;
  client_supplier : string;
  ruc : option string;
  subtotal : Value;
  igv : Value;
  total : Value
}.

#[global] Instance eq_dec : EqDecision t.
Proof. solve_decision. Defined.
End InvoiceRow.

Module useInvoices.

Record Options : Type := {
  businessId : option string;
  period : option string;
  type : option string
}.

(** Filters chained on the query of [invoices]. *)
Inductive Filter : Type :=
| BusinessIdEq (business : string)
| TypeEq (type : string)
| DateGte (bound : string)
| DateLte (bound : string).

Definition matches (row : InvoiceRow.t) (f : Filter) : bool :=
  match f with
  | BusinessIdEq business => bool_decide (InvoiceRow.business_id row = business)
  | TypeEq type => bool_decide (InvoiceRow.type row = type)
  | DateGte bound => String.leb bound (InvoiceRow.date row)
  | DateLte bound => String.leb (InvoiceRow.date row) bound
  end.

Definition dateGe (a b : InvoiceRow.t) : Prop :=
  String.leb (InvoiceRow.date b) (InvoiceRow.date a) = true.

#[global] Instance dateGe_dec : RelDecision dateGe.
Proof. intros a b. unfold dateGe. apply _. Defined.

(** [.select('*').order('date', { ascending: false })] with the filters. *)
Definition select (filters : list Filter) (invoices : list InvoiceRow.t) : list InvoiceRow.t :=
  merge_sort dateGe (filter (fun row => forallb (matches row) filters = true) invoices).

(** The filters the hook chains, and the clock after it. *)
Definition query (options : Options) (clock : Clock) : list Filter * Clock :=
  let query := [] in
  let query :=
    match businessId options with
    | Some b => if businessSelected b then query ++ [BusinessIdEq b] else query
    | None => query
    end in
  let query :=
    match type options with
    | Some t => if truthyString t then query ++ [TypeEq t] else query
    | None => query
    end in
  match period options with
  | Some p =>
      if truthyString p && negb (bool_decide (p = "all")) then
        let '(range, clock) := getDateRangeFromPeriod p clock in
        let query :=
          if truthyString (startDate range) then query ++ [DateGte (startDate range)]
          else query in
        let query :=
          if truthyString (endDate range) then query ++ [DateLte (endDate range)]
          else query in
        (query, clock)
      else (query, clock)
  | None => (query, clock)
  end.

(** [queryFn]: [if (error) throw error; return data]. *)
Definition queryFn (health : Health) (invoices : list InvoiceRow.t) (options : Options)
    (clock : Clock) : Completion (option (list InvoiceRow.t)) * Clock :=
  let '(filters, clock) := query options clock in
  (response ← await health (select filters invoices);
   match error response with
   | Some e => Throw e
   | None => Normal (data response)
   end,
   clock).

End useInvoices.

Module TransactionRow.
(** The columns the hook reads, the joined category, and the other columns
    of the row. *)
Record t : Type := {
  id : string;
  date : string;
  business_id : string;
  category : option (string * string * string);
  columns : gmap string Value
}.
End TransactionRow.

Module useTransactions.

Record Options : Type := {
  businessId : option string;
  period : option string
}.

Inductive Filter : Type :=
| BusinessIdEq (business : string)
| DateGte (bound : string)
| DateLte (bound : string).

Definition matches (row : TransactionRow.t) (f : Filter) : bool :=
  match f with
  | BusinessIdEq business => bool_decide (TransactionRow.business_id row = business)
  | DateGte bound => String.leb bound (TransactionRow.date row)
  | DateLte bound => String.leb (TransactionRow.date row) bound
  end.

Definition dateGe (a b : TransactionRow.t) : Prop :=
  String.leb (TransactionRow.date b) (TransactionRow.date a) = true.

#[global] Instance dateGe_dec : RelDecision dateGe.
Proof. intros a b. unfold dateGe. apply _. Defined.

Definition select (filters : list Filter) (transactions : list TransactionRow.t)
  : list TransactionRow.t :=
  merge_sort dateGe (filter (fun row => forallb (matches row) filters = true) transactions).

Definition query (options : Options) (clock : Clock) : list Filter * Clock :=
  let query := [] in
  let query :=
    match businessId options with
    | Some b => if businessSelected b then query ++ [BusinessIdEq b] else query
    | None => query
    end in
  match period options with
  | Some p =>
      if truthyString p && negb (bool_decide (p = "all")) then
        let '(range, clock) := getDateRangeFromPeriod p clock in
        let query :=
          if truthyString (startDate range) then query ++ [DateGte (startDate range)]
          else query in
        let query :=
          if truthyString (endDate range) then query ++ [DateLte (endDate range)]
          else query in
        (query, clock)
      else (query, clock)
  | None => (query, clock)
  end.

Definition queryFn (health : Health) (transactions : list TransactionRow.t)
    (options : Options) (clock : Clock)
  : Completion (option (list TransactionRow.t)) * Clock :=
  let '(filters, clock) := query options clock in
  (response ← await health (select filters transactions);
   match error response with
   | Some e => Throw e
   | None => Normal (data response)
   end,
   clock).

End useTransactions.

(** The period asks for no date bound: it is absent, empty or [all]. *)
Definition unbounded (period : option string) : bool :=
  match period with
  | Some p => negb (truthyString p && negb (bool_decide (p = "all")))
  | None => true
  end.

(** The business filter of a hook option. *)
Definition ofOptionalBusiness (businessId : option string) (business : string) : Prop :=
  forall b, businessId = Some b -> businessSelected b = true -> business = b.

(** The type filter of [useInvoices]. *)
Definition ofType (type : option string) (t : string) : Prop :=
  forall t', type = Some t' -> t' <> "" -> t = t'.

(** The date bounds a hook applies for its period. *)
Definition withinPeriod (period : option string) (clock : Clock) (d : string) : Prop :=
  unbounded period = false ->
  forall p, period = Some p ->
    onOrBefore (startDate (fst (getDateRangeFromPeriod p clock))) d
    /\ onOrBefore d (endDate (fst (getDateRangeFromPeriod p clock))).

(** Rows in ascending order of account code, and entries latest first. *)
Definition codeOrder (r1 r2 : AccountBalance.t) : Prop :=
  String.leb (AccountBalance.code r1) (AccountBalance.code r2) = true.

Definition latestFirst (a b : AccountingEntry.t) : Prop :=
  String.leb (AccountingEntry.date b) (AccountingEntry.date a) = true.

(** ** Further sample data *)

Module Scenario.

Import Sample.

(** The journal of [march] behind a lines table that rejects. *)
Definition linesDown : Supabase :=
  {| database := march; chartHealth := Healthy; entriesHealth := Healthy;
     linesHealth := Rejecting "lines unreachable" |}.

Definition january15 : Clock := at_ 2024 0 15.

(** What the listing asks the hook for, for all businesses. *)
Definition listingOf (clock : Clock) (period : string) : useAccountingEntries.Options :=
  AccountingEntries.options clock "all" period.

(** The rent entry of [march] as the hook returns it. *)
Definition rentEntry : AccountingEntry.t :=
  useAccountingEntries.withLines noStrings
    (selectLines (id <$> selectedEntries march (listingOf march25 "current-month")) march)
    (entry "E2" "2024-03-20").

(** Invoices of two businesses around March 2024. *)
Definition invoice (i d b t : string) : InvoiceRow.t :=
  {| InvoiceRow.id := i; InvoiceRow.date := d; InvoiceRow.invoice_number := i;
     InvoiceRow.business_id := b; InvoiceRow.type := t;
     InvoiceRow.client_supplier := "Comercial Lima"; InvoiceRow.ruc := None;
     InvoiceRow.subtotal := money 100; InvoiceRow.igv := money 18;
     InvoiceRow.total := money 118 |}.

Definition invoices : list InvoiceRow.t :=
  [ invoice "F1" "2024-02-10" "b1" "sale";
    invoice "F2" "2024-03-05" "b1" "sale";
    invoice "F3" "2024-03-12" "b1" "purchase";
    invoice "F4" "2024-03-20" "b2" "sale" ].

Definition salesOfMonth : useInvoices.Options :=
  {| useInvoices.businessId := Some "b1"; useInvoices.period := Some "current-month";
     useInvoices.type := Some "sale" |}.

Definition transaction (i d b : string) : TransactionRow.t :=
  {| TransactionRow.id := i; TransactionRow.date := d; TransactionRow.business_id := b;
     TransactionRow.category := Some ("c1", "Ventas", "income");
     TransactionRow.columns := {[ "amount" := money 100 ]} |}.

Definition transactions : list TransactionRow.t :=
  [ transaction "T1" "2023-11-02" "b1";
    transaction "T2" "2024-03-05" "b1";
    transaction "T3" "2024-03-20" "b2" ].

Definition ofLastYear : useTransactions.Options :=
  {| useTransactions.businessId := Some "all";
     useTransactions.period := Some "last-year" |}.

End Scenario.

(** * Facts *)

(** ** Numbers *)



Lemma or_zero_finite (n : Number) :
  or n zero = Finite (match n with Finite q => q | NaN => 0 end).
Proof.
  unfold or, truthy. destruct n as [q|]; [|reflexivity].
  case_bool_decide as Hq; simpl; [by rewrite Hq | reflexivity].
Qed.


Lemma sumQc_app (xs ys : list Qc) : sumQc (xs ++ ys) = sumQc xs + sumQc ys.
Proof.
  unfold sumQc. induction xs as [|x xs IH]; simpl; [ring | rewrite IH; ring].
Qed.



Lemma filter_none {A : Type} (P : A -> Prop) `{forall x, Decision (P x)} (xs : list A) :
  (forall x, x ∈ xs -> ~ P x) -> filter P xs = [].
Proof.
  induction xs as [|x xs IH]; intros Hno; [reflexivity|].
  rewrite filter_cons, decide_False by (apply Hno; set_solver).
  apply IH. intros y Hy. apply Hno. set_solver.
Qed.

(** ** The accumulator *)

Section AccumulatorFacts.

Variable parse : string -> Number.

Lemma or_toNumber (v : Value) : or (toNumber parse v) zero = Finite (amount parse v).
Proof. unfold amount. by rewrite or_zero_finite. Qed.


Lemma netMovement_snoc (lines : list LineRow) (line : LineRow) (key : string) :
  netMovement parse (lines ++ [line]) key =
  netMovement parse lines key + (if decide (account_code line = key) then lineNet parse line else 0).
Proof.
  unfold netMovement. rewrite filter_app, fmap_app, sumQc_app. f_equal.
  rewrite filter_cons, filter_nil. case_decide; unfold sumQc; simpl; ring.
Qed.

Lemma netMovement_absent (lines : list LineRow) (key : string) :
  key ∉ account_code <$> lines -> netMovement parse lines key = 0.
Proof.
  intros Hin. unfold netMovement.
  rewrite filter_none; [reflexivity|].
  intros l Hl Hc. apply Hin. set_solver.
Qed.

Lemma accumulateLine_lookup (balances : gmap string Number) (line : LineRow) (q : Qc) :
  balances !! account_code line = None /\ q = 0 \/
  balances !! account_code line = Some (Finite q) ->
  accumulateLine parse balances line !! account_code line = Some (Finite (q + lineNet parse line))
  /\ forall key, key <> account_code line ->
       accumulateLine parse balances line !! key = balances !! key.
Proof.
  intros Hq. unfold accumulateLine. rewrite !or_toNumber.
  unfold unset, readBalance, truthy.
  destruct Hq as [[Hnone ->]|Hsome].
  - rewrite Hnone. rewrite !lookup_insert_eq. split.
    + simpl. do 2 f_equal; try (unfold lineNet, lineDebit, lineCredit; ring).
    + intros key Hne. by rewrite !lookup_insert_ne.
  - rewrite Hsome. case_bool_decide as Hz; simpl.
    + subst q. rewrite !lookup_insert_eq. split.
      * simpl. do 2 f_equal; try (unfold lineNet, lineDebit, lineCredit; ring).
      * intros key Hne. by rewrite !lookup_insert_ne.
    + rewrite Hsome, lookup_insert_eq. split; [reflexivity|].
      intros key Hne. by rewrite lookup_insert_ne.
Qed.

Lemma represents_snoc (balances : gmap string Number) (lines : list LineRow) (line : LineRow) :
  represents parse balances lines ->
  represents parse (accumulateLine parse balances line) (lines ++ [line]).
Proof.
  intros Hrep key.
  assert (Hat := Hrep (account_code line)).
  destruct (accumulateLine_lookup balances line
              (if decide (account_code line ∈ account_code <$> lines)
               then netMovement parse lines (account_code line) else 0)) as [Heq Hne].
  { case_decide; [right | left]; done. }
  rewrite netMovement_snoc, fmap_app. simpl.
  destruct (decide (key = account_code line)) as [->|Hkey].
  - rewrite Heq.
    rewrite (decide_True (P := _ ∈ _ ++ _))
      by (apply elem_of_app; right; apply list_elem_of_singleton; done).
    rewrite (decide_True (P := _ = _)) by done. do 2 f_equal.
    case_decide as Hin; [reflexivity|].
    by rewrite netMovement_absent.
  - rewrite (Hne key Hkey), (Hrep key).
    rewrite (decide_False (P := account_code line = key)) by done.
    replace (netMovement parse lines key + 0) with (netMovement parse lines key) by ring.
    destruct (decide (key ∈ account_code <$> lines)) as [Hin|Hin].
    + rewrite (decide_True (P := _ ∈ _ ++ _)); [done|].
      apply elem_of_app. by left.
    + rewrite (decide_False (P := _ ∈ _ ++ _)); [done|].
      intros [?|?%list_elem_of_singleton]%elem_of_app; done.
Qed.

Lemma accumulate_represents (lines : list LineRow) : represents parse (accumulate parse lines) lines.
Proof.
  unfold accumulate.
  induction lines as [|line lines IH] using rev_ind.
  - intros key. cbn [fold_left]. rewrite lookup_empty. case_decide as Hin; [|done].
    by apply elem_of_nil in Hin.
  - rewrite fold_left_app. simpl. by apply represents_snoc.
Qed.

(** [balances[code] || 0] is the raw net movement of the account. *)
Lemma balanceOrZero_accumulate (lines : list LineRow) (key : string) :
  balanceOrZero (accumulate parse lines) key = Finite (netMovement parse lines key).
Proof.
  unfold balanceOrZero. rewrite (accumulate_represents lines key).
  case_decide as Hin.
  - by rewrite or_zero_finite.
  - by rewrite netMovement_absent.
Qed.

Lemma balanceOrZero_empty (key : string) : balanceOrZero ∅ key = Finite 0.
Proof. unfold balanceOrZero. by rewrite lookup_empty. Qed.

End AccumulatorFacts.

(** ** Conservation law of the accumulator *)



Section Conservation.

Variable parse : string -> Number.






End Conservation.

(** ** Scope of the two statements *)

Lemma selectEntries_stock (db : Database) (businessId endDate : string) :
  selectEntries (BalanceSheet.entriesQuery businessId endDate) db =
  filter (stockScope businessId endDate) (accounting_entries db).
Proof.
  unfold selectEntries. apply list_filter_iff. intros e.
  unfold BalanceSheet.entriesQuery, stockScope, ofBusiness, onOrBefore.
  destruct (businessSelected businessId); simpl; rewrite ?andb_true_r, ?andb_true_iff.
  - rewrite bool_decide_eq_true. tauto.
  - intuition discriminate.
Qed.

Lemma selectEntries_flow (db : Database) (businessId : string) (range : DateRange) :
  selectEntries (IncomeStatement.entriesQuery businessId range) db =
  filter (flowScope businessId range) (accounting_entries db).
Proof.
  unfold selectEntries. apply list_filter_iff. intros e.
  unfold IncomeStatement.entriesQuery, flowScope, ofBusiness, onOrBefore.
  destruct (businessSelected businessId); simpl; rewrite ?andb_true_r, ?andb_true_iff.
  - rewrite bool_decide_eq_true. tauto.
  - intuition discriminate.
Qed.


(** ** Rows of a statement *)

Lemma elem_of_selectAccounts (types : list string) (db : Database) (a : ChartRow) :
  a ∈ selectAccounts types db <-> a ∈ chart_of_accounts db /\ account_type a ∈ types.
Proof.
  unfold selectAccounts. rewrite merge_sort_Permutation, list_elem_of_filter. tauto.
Qed.




Section RowFacts.

Variable net : string -> Qc.
Variable balances : gmap string Number.
Hypothesis balances_net : forall key, balanceOrZero balances key = Finite (net key).




End RowFacts.

(** ** What a load gives when the data layer answers *)

Section HealthyLoad.

Variable parse : string -> Number.
Variable db : Database.
Variable clock : Clock.
Variables businessId period : string.

Lemma fetchBalances_healthy (entryIds : list string) :
  exists balances,
    fetchBalances parse (healthy db) entryIds = Normal balances
    /\ forall key,
         balanceOrZero balances key =
         Finite (netMovement parse (selectLines entryIds db) key).
Proof.
  unfold fetchBalances. case_bool_decide as Hlen; simpl.
  - eexists. split; [reflexivity|]. intros key. apply balanceOrZero_accumulate.
  - exists ∅. split; [reflexivity|]. intros key.
    destruct entryIds; [|simpl in Hlen; lia].
    rewrite balanceOrZero_empty. unfold selectLines.
    rewrite filter_none; [reflexivity|]. intros l _ Hl. by apply elem_of_nil in Hl.
Qed.

Lemma BalanceSheet_load_healthy (st : BalanceSheet.State) :
  let endDate := endDate (fst (getDateRangeFromPeriod period clock)) in
  let accounts := selectAccounts ["asset"; "liability"; "equity"] db in
  exists balances,
    (forall key, balanceOrZero balances key =
                 Finite (netMovement parse (stockLines db businessId endDate) key))
    /\ BalanceSheet.loadBalanceSheet parse (healthy db) clock businessId period st =
       {| BalanceSheet.assetAccounts := section "asset" (debitNormal balances) accounts;
          BalanceSheet.liabilityAccounts :=
            section "liability" (creditNormal balances) accounts;
          BalanceSheet.equityAccounts := section "equity" (creditNormal balances) accounts;
          BalanceSheet.loading := false |}.
Proof.
  intros endDate accounts.
  unfold BalanceSheet.loadBalanceSheet, BalanceSheet.tryBlock, BalanceSheet.entryIds.
  cbn -[fetchBalances selectAccounts selectEntries section getDateRangeFromPeriod].
  rewrite selectEntries_stock. fold endDate.
  destruct (fetchBalances_healthy
              (id <$> filter (stockScope businessId endDate) (accounting_entries db)))
    as (balances & -> & Hbal).
  exists balances. split; [exact Hbal | reflexivity].
Qed.

Lemma IncomeStatement_load_healthy (st : IncomeStatement.State) :
  let range := fst (getDateRangeFromPeriod period clock) in
  let accounts := selectAccounts ["income"; "expense"] db in
  exists balances,
    (forall key, balanceOrZero balances key =
                 Finite (netMovement parse (flowLines db businessId range) key))
    /\ IncomeStatement.loadIncomeStatement parse (healthy db) clock businessId period st =
       {| IncomeStatement.incomeAccounts := section "income" (creditNormal balances) accounts;
          IncomeStatement.expenseAccounts :=
            section "expense" (debitNormal balances) accounts;
          IncomeStatement.loading := false |}.
Proof.
  intros range accounts.
  unfold IncomeStatement.loadIncomeStatement, IncomeStatement.tryBlock,
    IncomeStatement.entryIds.
  cbn -[fetchBalances selectAccounts selectEntries section getDateRangeFromPeriod].
  rewrite selectEntries_flow. fold range.
  destruct (fetchBalances_healthy
              (id <$> filter (flowScope businessId range) (accounting_entries db)))
    as (balances & -> & Hbal).
  exists balances. split; [exact Hbal | reflexivity].
Qed.

End HealthyLoad.

(** Closes a decidable goal on closed terms by evaluation. *)
Ltac decide_closed :=
  match goal with
  | |- ?P => apply (bool_decide_eq_true_1 P); vm_compute; reflexivity
  end.

(** ** Grouping by category *)

Lemma groupStep_lookup (groups : gmap string (list AccountBalance.t))
    (item : AccountBalance.t) (cat : string) :
  groupStep groups item !! cat =
  if decide (AccountBalance.category item = cat)
  then Some (default [] (groups !! cat) ++ [item])
  else groups !! cat.
Proof.
  unfold groupStep. case_decide as Hcat.
  - subst cat. destruct (groups !! AccountBalance.category item) as [group|] eqn:Hg.
    + by rewrite Hg, lookup_insert_eq.
    + by rewrite !lookup_insert_eq.
  - destruct (groups !! AccountBalance.category item) as [group|] eqn:Hg.
    + by rewrite Hg, lookup_insert_ne.
    + by rewrite lookup_insert_eq, !lookup_insert_ne.
Qed.

Lemma groupByCategory_lookup (items : list AccountBalance.t) (cat : string) :
  groupByCategory items !! cat =
  match filter (fun r => AccountBalance.category r = cat) items with
  | [] => None
  | rows => Some rows
  end.
Proof.
  unfold groupByCategory. induction items as [|item items IH] using rev_ind.
  - cbn [fold_left]. by rewrite lookup_empty.
  - rewrite fold_left_app. cbn [fold_left]. rewrite groupStep_lookup, IH, filter_app.
    rewrite filter_cons, filter_nil. case_decide.
    + destruct (filter _ items); reflexivity.
    + by rewrite app_nil_r.
Qed.


(** ** Sign rule and zero-balance filter *)

Section SignRule.

Variable parse : string -> Number.
Variable db : Database.
Variable clock : Clock.
Variables businessId period : string.
Variable bsState : BalanceSheet.State.
Variable isState : IncomeStatement.State.

Let range := fst (getDateRangeFromPeriod period clock).
Let sheet := BalanceSheet.loadBalanceSheet parse (healthy db) clock businessId period bsState.
Let income := IncomeStatement.loadIncomeStatement parse (healthy db) clock businessId period isState.


End SignRule.




(** ** Totals *)




Section Totals.

Variable parse : string -> Number.
Variable db : Database.
Variable clock : Clock.
Variables businessId period : string.

Let range := fst (getDateRangeFromPeriod period clock).



End Totals.

(** ** Order of the supplied rows *)






(** ** Lines posted to accounts outside the fetched chart *)

Lemma filter_delete_rejected {A : Type} (P : A -> Prop) `{forall x, Decision (P x)}
    (xs : list A) (n : nat) (x : A) :
  xs !! n = Some x -> ~ P x -> filter P (delete n xs) = filter P xs.
Proof.
  revert n. induction xs as [|y ys IH]; intros [|n] Hn Hx; try discriminate.
  - injection Hn as ->. by rewrite filter_cons, decide_False.
  - change (delete (S n) (y :: ys)) with (y :: delete n ys).
    rewrite !filter_cons, (IH n Hn Hx). reflexivity.
Qed.

Lemma netMovement_selectLines_delete (parse : string -> Number) (ids : list string)
    (db : Database) (n : nat) (line : LineRow) (key : string) :
  accounting_entry_lines db !! n = Some line ->
  key <> account_code line ->
  netMovement parse (selectLines ids (withoutLine n db)) key =
  netMovement parse (selectLines ids db) key.
Proof.
  intros Hn Hkey. unfold netMovement, selectLines, withoutLine.
  cbn [accounting_entry_lines]. rewrite !list_filter_filter.
  rewrite (filter_delete_rejected _ _ n line Hn); [reflexivity|].
  intros [Hc _]. by apply Hkey.
Qed.

Lemma section_ext (type : string) (row row' : ChartRow -> AccountBalance.t)
    (accounts : list ChartRow) :
  (forall a, a ∈ accounts -> account_type a = type -> row a = row' a) ->
  section type row accounts = section type row' accounts.
Proof.
  intros Hrow. unfold section. f_equal. apply list_fmap_ext. intros i a Ha.
  apply list_elem_of_lookup_2 in Ha. apply list_elem_of_filter in Ha as [Htype Ha].
  by apply Hrow.
Qed.

Lemma debitNormal_ext (balances balances' : gmap string Number) (a : ChartRow) :
  balanceOrZero balances (code a) = balanceOrZero balances' (code a) ->
  debitNormal balances a = debitNormal balances' a.
Proof. intros Heq. unfold debitNormal. by rewrite Heq. Qed.

Lemma creditNormal_ext (balances balances' : gmap string Number) (a : ChartRow) :
  balanceOrZero balances (code a) = balanceOrZero balances' (code a) ->
  creditNormal balances a = creditNormal balances' a.
Proof. intros Heq. unfold creditNormal. by rewrite Heq. Qed.

(** C10. A journal line whose account code is not the code of any fetched
    account of the statement's types leaves that statement untouched: with
    the data layer answering, the Income Statement (respectively the Balance
    Sheet) shows the same groups and the same totals as it does with the line
    removed from the journal. *)
Theorem unlisted_line_ignored (parse : string -> Number) (db : Database) (clock : Clock)
    (businessId period : string)
    (bsState : BalanceSheet.State) (isState : IncomeStatement.State)
    (n : nat) (line : LineRow) :
  accounting_entry_lines db !! n = Some line ->
  ((forall a, a ∈ chart_of_accounts db -> account_type a ∈ ["income"; "expense"] ->
              code a <> account_code line) ->
   IncomeStatement.render
     (IncomeStatement.loadIncomeStatement parse (healthy db) clock businessId period isState)
   = IncomeStatement.render
       (IncomeStatement.loadIncomeStatement parse (healthy (withoutLine n db)) clock
          businessId period isState))
  /\ ((forall a, a ∈ chart_of_accounts db ->
                 account_type a ∈ ["asset"; "liability"; "equity"] ->
                 code a <> account_code line) ->
      BalanceSheet.render
        (BalanceSheet.loadBalanceSheet parse (healthy db) clock businessId period bsState)
      = BalanceSheet.render
          (BalanceSheet.loadBalanceSheet parse (healthy (withoutLine n db)) clock
             businessId period bsState)).
Proof.
  intros Hn. split; intros Hcodes; f_equal.
  - destruct (IncomeStatement_load_healthy parse db clock businessId period isState)
      as (bal & Hbal & ->).
    destruct (IncomeStatement_load_healthy parse (withoutLine n db) clock businessId
                period isState) as (bal' & Hbal' & ->).
    assert (Heq : forall a, a ∈ selectAccounts ["income"; "expense"] db ->
                            balanceOrZero bal (code a) = balanceOrZero bal' (code a)).
    { intros a Ha. apply elem_of_selectAccounts in Ha as [Ha Htype].
      rewrite Hbal, Hbal'. f_equal. symmetry.
      apply (netMovement_selectLines_delete parse _ db n line); [done|]. by apply Hcodes. }
    change (selectAccounts ["income"; "expense"] (withoutLine n db))
      with (selectAccounts ["income"; "expense"] db).
    f_equal; apply section_ext; intros a Ha _.
    + by apply creditNormal_ext, Heq.
    + by apply debitNormal_ext, Heq.
  - destruct (BalanceSheet_load_healthy parse db clock businessId period bsState)
      as (bal & Hbal & ->).
    destruct (BalanceSheet_load_healthy parse (withoutLine n db) clock businessId
                period bsState) as (bal' & Hbal' & ->).
    assert (Heq : forall a, a ∈ selectAccounts ["asset"; "liability"; "equity"] db ->
                            balanceOrZero bal (code a) = balanceOrZero bal' (code a)).
    { intros a Ha. apply elem_of_selectAccounts in Ha as [Ha Htype].
      rewrite Hbal, Hbal'. f_equal. symmetry.
      apply (netMovement_selectLines_delete parse _ db n line); [done|]. by apply Hcodes. }
    change (selectAccounts ["asset"; "liability"; "equity"] (withoutLine n db))
      with (selectAccounts ["asset"; "liability"; "equity"] db).
    f_equal; apply section_ext; intros a Ha _.
    + by apply debitNormal_ext, Heq.
    + by apply creditNormal_ext, Heq.
    + by apply creditNormal_ext, Heq.
Qed.

(** ** The accounting equation *)






Section Equation.

Variable parse : string -> Number.





End Equation.



(** ** Fetch failures *)

Lemma fetchBalances_nil (parse : string -> Number) (supabase : Supabase) :
  fetchBalances parse supabase [] = Normal ∅.
Proof. reflexivity. Qed.

(** C5. A failed fetch is not propagated by the two statements.  When the
    entries query resolves with an error, each statement ends up exactly as
    it does for a journal without entries; when the query rejects, the catch
    block keeps whatever was shown before.  The journal hook, on the same
    failure, throws the error to its caller. *)
Theorem fetch_failure_masked (parse : string -> Number) (db : Database) (clock : Clock)
    (businessId period message : string)
    (bsState : BalanceSheet.State) (isState : IncomeStatement.State)
    (options : useAccountingEntries.Options) :
  BalanceSheet.loadBalanceSheet parse (entriesFailing message db) clock businessId period bsState
  = BalanceSheet.loadBalanceSheet parse (healthy (withoutEntries db)) clock businessId period
      bsState
  /\ BalanceSheet.loadBalanceSheet parse (entriesFailing message db) clock businessId period
       bsState
     = {| BalanceSheet.assetAccounts := []; BalanceSheet.liabilityAccounts := [];
          BalanceSheet.equityAccounts := []; BalanceSheet.loading := false |}
  /\ IncomeStatement.loadIncomeStatement parse (entriesFailing message db) clock businessId
       period isState
     = IncomeStatement.loadIncomeStatement parse (healthy (withoutEntries db)) clock businessId
         period isState
  /\ IncomeStatement.loadIncomeStatement parse (entriesFailing message db) clock businessId
       period isState
     = {| IncomeStatement.incomeAccounts := []; IncomeStatement.expenseAccounts := [];
          IncomeStatement.loading := false |}
  /\ BalanceSheet.loadBalanceSheet parse (entriesRejecting message db) clock businessId period
       bsState
     = BalanceSheet.setLoading false bsState
  /\ IncomeStatement.loadIncomeStatement parse (entriesRejecting message db) clock businessId
       period isState
     = IncomeStatement.setLoading false isState
  /\ useAccountingEntries.queryFn parse (entriesFailing message db) options = Throw message.
Proof.
  assert (Hempty : forall type row accounts balances,
             (forall a, AccountBalance.balance (row balances a) = balanceOrZero balances (code a)
                        \/ AccountBalance.balance (row balances a)
                           = neg (balanceOrZero balances (code a))) ->
             balances = ∅ ->
             section type (row balances) accounts = []).
  { intros type row accounts balances Hrow ->. unfold section. apply filter_none.
    intros r Hr Hnz. apply list_elem_of_fmap in Hr as (a & -> & _).
    destruct (Hrow a) as [Hb|Hb]; rewrite Hb, balanceOrZero_empty in Hnz;
      vm_compute in Hnz; discriminate. }
  assert (Hdebit : forall balances a,
             AccountBalance.balance (debitNormal balances a) = balanceOrZero balances (code a)
             \/ AccountBalance.balance (debitNormal balances a)
                = neg (balanceOrZero balances (code a))) by (by left).
  assert (Hcredit : forall balances a,
             AccountBalance.balance (creditNormal balances a) = balanceOrZero balances (code a)
             \/ AccountBalance.balance (creditNormal balances a)
                = neg (balanceOrZero balances (code a))) by (by right).
  assert (Hbs : BalanceSheet.loadBalanceSheet parse (entriesFailing message db) clock
                  businessId period bsState
                = {| BalanceSheet.assetAccounts := []; BalanceSheet.liabilityAccounts := [];
                     BalanceSheet.equityAccounts := []; BalanceSheet.loading := false |}).
  { unfold BalanceSheet.loadBalanceSheet, BalanceSheet.tryBlock, BalanceSheet.entryIds.
    cbn -[selectAccounts selectEntries section getDateRangeFromPeriod fetchBalances].
    rewrite fetchBalances_nil. cbn -[selectAccounts section].
    by rewrite !(Hempty _ _ _ ∅). }
  assert (His : IncomeStatement.loadIncomeStatement parse (entriesFailing message db) clock
                  businessId period isState
                = {| IncomeStatement.incomeAccounts := [];
                     IncomeStatement.expenseAccounts := [];
                     IncomeStatement.loading := false |}).
  { unfold IncomeStatement.loadIncomeStatement, IncomeStatement.tryBlock,
      IncomeStatement.entryIds.
    cbn -[selectAccounts selectEntries section getDateRangeFromPeriod fetchBalances].
    rewrite fetchBalances_nil. cbn -[selectAccounts section].
    by rewrite !(Hempty _ _ _ ∅). }
  split_and!; done.
Qed.

(** ** Period resolvers *)

Lemma getDateRangeFromPeriod_clock (period : string) (clock : Clock) :
  snd (getDateRangeFromPeriod period clock) =
  {| instants := instants clock; reads := S (reads clock) |}.
Proof. reflexivity. Qed.


Lemma getPeriodDates_default (period : string) (clock : Clock) :
  period ∉ recognizedByPage ->
  fst (getPeriodDates period clock) = {| start := None; end_ := None |}.
Proof.
  intros Hnot. unfold getPeriodDates. cbn [newDate fst].
  repeat (case_decide as Hp;
          [exfalso; apply Hnot; rewrite Hp; decide_closed | clear Hp]).
  reflexivity.
Qed.


(** ** The entry listing *)


Section Listing.

Variable parse : string -> Number.
Variable db : Database.

Lemma queryFn_healthy (options : useAccountingEntries.Options) :
  let entries :=
    merge_sort dateGe (selectEntries (useAccountingEntries.entriesQuery options) db) in
  useAccountingEntries.queryFn parse (healthy db) options =
  Normal (useAccountingEntries.withLines parse (selectLines (id <$> entries) db)
            <$> entries).
Proof.
  intros entries. unfold useAccountingEntries.queryFn.
  cbn -[selectEntries selectLines merge_sort useAccountingEntries.withLines].
  fold entries. destruct entries; reflexivity.
Qed.


End Listing.


(** * The sample journals *)

Import Sample.

(** The scenario of the specification: income 500, expenses 200, net income
    300; cash 300 on the Balance Sheet, nothing on its other side. *)
Example march_figures :
  BalanceSheet.totalAssets (sheetOf march) = Finite (Q2Qc 300)
  /\ BalanceSheet.totalLiabilitiesAndEquity (sheetOf march) = Finite (Q2Qc 0)
  /\ IncomeStatement.totalIncome (incomeOf march) = Finite (Q2Qc 500)
  /\ IncomeStatement.totalExpenses (incomeOf march) = Finite (Q2Qc 200)
  /\ IncomeStatement.netIncome (incomeOf march) = Finite (Q2Qc 300).
Proof. split_and!; decide_closed. Qed.

(** The January entry feeds the Balance Sheet of March, not its Income
    Statement. *)
Example ledger_scopes :
  BalanceSheet.entryIds (healthy ledger) "all" (endDate marchRange)
    = Normal ["E0"; "E1"; "E2"]
  /\ IncomeStatement.entryIds (healthy ledger) "all" marchRange = Normal ["E1"; "E2"].
Proof. split; reflexivity. Qed.

Example current_month_of_february_2024 :
  fst (getDateRangeFromPeriod "current-month" (at_ 2024 1 10))
  = {| startDate := "2024-02-01"; endDate := "2024-02-29" |}.
Proof. reflexivity. Qed.












Lemma unlisted_line_ignored_witness :
  (accounting_entry_lines march !! 1%nat
     = Some (line 2 "E1" "7011" (money 0) (money 500))
   /\ Forall (fun a => account_type a ∈ ["asset"; "liability"; "equity"] ->
                       code a <> "7011") (chart_of_accounts march))
  /\ BalanceSheet.render (sheetOf march)
     = BalanceSheet.render
         (BalanceSheet.loadBalanceSheet noStrings (healthy (withoutLine 1 march)) march25
            "all" "current-month" BalanceSheet.initial).
Proof.
  assert (Hcodes : Forall (fun a => account_type a ∈ ["asset"; "liability"; "equity"] ->
                                    code a <> "7011") (chart_of_accounts march))
    by decide_closed.
  split; [split; [reflexivity | exact Hcodes]|].
  apply (unlisted_line_ignored noStrings march march25 "all" "current-month"
           BalanceSheet.initial IncomeStatement.initial 1
           (line 2 "E1" "7011" (money 0) (money 500)) eq_refl).
  intros a Ha. rewrite Forall_forall in Hcodes. by apply Hcodes.
Defined.


(** * Further properties *)

(** ** The accumulator as a mapping *)




(** ** Category groups *)


(** ** Loading a statement *)

Lemma section_no_balances (type : string) (accounts : list ChartRow) :
  section type (debitNormal ∅) accounts = []
  /\ section type (creditNormal ∅) accounts = [].
Proof.
  split; unfold section; apply filter_none; intros r Hr Hnz;
    apply list_elem_of_fmap in Hr as (a & -> & _);
    cbn [debitNormal creditNormal AccountBalance.balance] in Hnz;
    rewrite balanceOrZero_empty in Hnz; vm_compute in Hnz; discriminate.
Qed.

(** Once [loadBalanceSheet] or [loadIncomeStatement] has run, the component
    is no longer loading, whatever the data layer did; and when no query
    rejects, the rows it holds do not depend on the rows it held before. *)
Theorem load_settles (parse : string -> Number) (supabase : Supabase) (clock : Clock)
    (businessId period : string)
    (sheet sheet' : BalanceSheet.State) (income income' : IncomeStatement.State) :
  (BalanceSheet.loading
     (BalanceSheet.loadBalanceSheet parse supabase clock businessId period sheet) = false
   /\ IncomeStatement.loading
        (IncomeStatement.loadIncomeStatement parse supabase clock businessId period income)
      = false)
  /\ (answers (chartHealth supabase) = true ->
      answers (entriesHealth supabase) = true ->
      answers (linesHealth supabase) = true ->
      BalanceSheet.loadBalanceSheet parse supabase clock businessId period sheet
      = BalanceSheet.loadBalanceSheet parse supabase clock businessId period sheet'
      /\ IncomeStatement.loadIncomeStatement parse supabase clock businessId period income
         = IncomeStatement.loadIncomeStatement parse supabase clock businessId period income').
Proof.
  split; [split; reflexivity|].
  intros Hchart Hentries Hlines.
  unfold BalanceSheet.loadBalanceSheet, BalanceSheet.tryBlock, BalanceSheet.entryIds,
    IncomeStatement.loadIncomeStatement, IncomeStatement.tryBlock, IncomeStatement.entryIds,
    fetchBalances.
  destruct (chartHealth supabase); try discriminate;
    destruct (entriesHealth supabase); try discriminate;
    destruct (linesHealth supabase); try discriminate;
    cbn -[selectAccounts selectEntries selectLines section getDateRangeFromPeriod accumulate];
    split; try reflexivity; repeat case_bool_decide; reflexivity.
Qed.

Lemma load_settles_witness :
  (answers (chartHealth (entriesFailing "timeout" march)) = true
   /\ answers (entriesHealth (entriesFailing "timeout" march)) = true
   /\ answers (linesHealth (entriesFailing "timeout" march)) = true)
  /\ BalanceSheet.loadBalanceSheet noStrings (entriesFailing "timeout" march) march25 "all"
       "current-month" (sheetOf march)
     = BalanceSheet.loadBalanceSheet noStrings (entriesFailing "timeout" march) march25 "all"
         "current-month" BalanceSheet.initial.
Proof.
  split; [done|].
  exact (proj1 (proj2 (load_settles noStrings (entriesFailing "timeout" march) march25 "all"
                         "current-month" (sheetOf march) BalanceSheet.initial
                         IncomeStatement.initial IncomeStatement.initial)
                  eq_refl eq_refl eq_refl)).
Defined.

(** ** Statements without entries in scope *)

Lemma section_debit_empty (type : string) (accounts : list ChartRow) :
  section type (debitNormal ∅) accounts = [].
Proof. apply section_no_balances. Qed.

Lemma section_credit_empty (type : string) (accounts : list ChartRow) :
  section type (creditNormal ∅) accounts = [].
Proof. apply section_no_balances. Qed.

Section EmptyScope.

Variable parse : string -> Number.
Variable supabase : Supabase.
Variable clock : Clock.
Variables businessId period : string.

Lemma BalanceSheet_load_unfetched (st : BalanceSheet.State) :
  answers (chartHealth supabase) = true ->
  answers (entriesHealth supabase) = true ->
  fetchedEntries supabase
    (BalanceSheet.entriesQuery businessId
       (endDate (fst (getDateRangeFromPeriod period clock)))) = [] ->
  BalanceSheet.loadBalanceSheet parse supabase clock businessId period st = emptySheet.
Proof.
  intros Hchart Hentries Hnone.
  unfold BalanceSheet.loadBalanceSheet, BalanceSheet.tryBlock, BalanceSheet.entryIds.
  unfold fetchedEntries in Hnone.
  destruct (chartHealth supabase); try discriminate;
    destruct (entriesHealth supabase); try discriminate;
    cbn -[selectAccounts selectEntries section getDateRangeFromPeriod fetchBalances];
    try reflexivity.
  - rewrite Hnone. cbn -[selectAccounts section]. rewrite fetchBalances_nil.
    cbn -[selectAccounts section].
    by rewrite ?section_debit_empty, ?section_credit_empty.
  - rewrite fetchBalances_nil. cbn -[selectAccounts section].
    by rewrite ?section_debit_empty, ?section_credit_empty.
Qed.

Lemma IncomeStatement_load_unfetched (st : IncomeStatement.State) :
  answers (chartHealth supabase) = true ->
  answers (entriesHealth supabase) = true ->
  fetchedEntries supabase
    (IncomeStatement.entriesQuery businessId (fst (getDateRangeFromPeriod period clock))) = [] ->
  IncomeStatement.loadIncomeStatement parse supabase clock businessId period st = emptyIncome.
Proof.
  intros Hchart Hentries Hnone.
  unfold IncomeStatement.loadIncomeStatement, IncomeStatement.tryBlock,
    IncomeStatement.entryIds.
  unfold fetchedEntries in Hnone.
  destruct (chartHealth supabase); try discriminate;
    destruct (entriesHealth supabase); try discriminate;
    cbn -[selectAccounts selectEntries section getDateRangeFromPeriod fetchBalances];
    try reflexivity.
  - rewrite Hnone. cbn -[selectAccounts section]. rewrite fetchBalances_nil.
    cbn -[selectAccounts section].
    by rewrite ?section_debit_empty, ?section_credit_empty.
  - rewrite fetchBalances_nil. cbn -[selectAccounts section].
    by rewrite ?section_debit_empty, ?section_credit_empty.
Qed.

End EmptyScope.

(** When the chart and entries queries resolve and no entry is fetched for
    the Balance Sheet, the lines table is not queried (its health plays no
    part): the statement has no row, its three totals are 0 and its balanced
    signal is true. *)
Theorem BalanceSheet_no_entries (parse : string -> Number) (supabase : Supabase)
    (clock : Clock) (businessId period : string) (st : BalanceSheet.State) :
  answers (chartHealth supabase) = true ->
  answers (entriesHealth supabase) = true ->
  fetchedEntries supabase
    (BalanceSheet.entriesQuery businessId
       (endDate (fst (getDateRangeFromPeriod period clock)))) = [] ->
  let sheet := BalanceSheet.loadBalanceSheet parse supabase clock businessId period st in
  sheet = emptySheet
  /\ BalanceSheet.totalAssets sheet = zero
  /\ BalanceSheet.totalLiabilitiesAndEquity sheet = zero
  /\ BalanceSheet.balanced sheet = true.
Proof.
  intros Hchart Hentries Hnone sheet. subst sheet.
  rewrite (BalanceSheet_load_unfetched parse supabase clock businessId period st
             Hchart Hentries Hnone).
  split_and!; [reflexivity | reflexivity | decide_closed | reflexivity].
Qed.

(** The same for the Income Statement: no fetched entry gives no row, total
    income, total expenses and net income 0, whatever the lines table. *)
Theorem IncomeStatement_no_entries (parse : string -> Number) (supabase : Supabase)
    (clock : Clock) (businessId period : string) (st : IncomeStatement.State) :
  answers (chartHealth supabase) = true ->
  answers (entriesHealth supabase) = true ->
  fetchedEntries supabase
    (IncomeStatement.entriesQuery businessId (fst (getDateRangeFromPeriod period clock))) = [] ->
  let income := IncomeStatement.loadIncomeStatement parse supabase clock businessId period st in
  income = emptyIncome
  /\ IncomeStatement.totalIncome income = zero
  /\ IncomeStatement.totalExpenses income = zero
  /\ IncomeStatement.netIncome income = zero.
Proof.
  intros Hchart Hentries Hnone income. subst income.
  rewrite (IncomeStatement_load_unfetched parse supabase clock businessId period st
             Hchart Hentries Hnone).
  split_and!; [reflexivity | reflexivity | reflexivity | decide_closed].
Qed.

Lemma leb_empty (s : string) : String.leb s "" = true -> s = "".
Proof. destruct s; [reflexivity | discriminate]. Qed.

(** With the period [all] the resolver gives two empty bounds, and both
    statements still bound the date by them: when the chart and entries
    queries resolve and every entry has a date, no entry passes, and both
    statements come out empty. *)
Theorem statements_of_all_time (parse : string -> Number) (supabase : Supabase)
    (clock : Clock) (businessId : string)
    (sheet : BalanceSheet.State) (income : IncomeStatement.State) :
  Forall (fun e => date e <> "") (accounting_entries (database supabase)) ->
  answers (chartHealth supabase) = true ->
  answers (entriesHealth supabase) = true ->
  BalanceSheet.loadBalanceSheet parse supabase clock businessId "all" sheet = emptySheet
  /\ IncomeStatement.loadIncomeStatement parse supabase clock businessId "all" income
     = emptyIncome.
Proof.
  intros Hdates Hchart Hentries. rewrite Forall_forall in Hdates.
  assert (Hnone : forall filters,
             DateLte "" ∈ filters ->
             fetchedEntries supabase filters = []).
  { intros filters Hin. unfold fetchedEntries.
    destruct (entriesHealth supabase); try reflexivity.
    unfold selectEntries. apply filter_none. intros e He Hall.
    rewrite forallb_forall in Hall. apply list_elem_of_In, Hall in Hin.
    apply leb_empty in Hin. by apply (Hdates e). }
  split.
  - apply BalanceSheet_load_unfetched; [done | done |]. apply Hnone.
    unfold BalanceSheet.entriesQuery. cbn [getDateRangeFromPeriod fst endDate].
    destruct (businessSelected businessId); cbn; rewrite ?elem_of_cons; tauto.
  - apply IncomeStatement_load_unfetched; [done | done |]. apply Hnone.
    unfold IncomeStatement.entriesQuery.
    destruct (businessSelected businessId); cbn; rewrite ?elem_of_cons; tauto.
Qed.

Lemma BalanceSheet_no_entries_witness :
  (answers (chartHealth Scenario.linesDown) = true
   /\ answers (entriesHealth Scenario.linesDown) = true
   /\ fetchedEntries Scenario.linesDown
        (BalanceSheet.entriesQuery "all"
           (endDate (fst (getDateRangeFromPeriod "current-month" Scenario.january15)))) = [])
  /\ BalanceSheet.loadBalanceSheet noStrings Scenario.linesDown Scenario.january15 "all"
       "current-month" (sheetOf march) = emptySheet.
Proof.
  split; [done|].
  exact (proj1 (BalanceSheet_no_entries noStrings Scenario.linesDown Scenario.january15
                  "all" "current-month" (sheetOf march) eq_refl eq_refl eq_refl)).
Defined.

Lemma IncomeStatement_no_entries_witness :
  (answers (chartHealth Scenario.linesDown) = true
   /\ answers (entriesHealth Scenario.linesDown) = true
   /\ fetchedEntries Scenario.linesDown
        (IncomeStatement.entriesQuery "all"
           (fst (getDateRangeFromPeriod "current-month" Scenario.january15))) = [])
  /\ IncomeStatement.loadIncomeStatement noStrings Scenario.linesDown Scenario.january15
       "all" "current-month" (incomeOf march) = emptyIncome.
Proof.
  split; [done|].
  exact (proj1 (IncomeStatement_no_entries noStrings Scenario.linesDown Scenario.january15
                  "all" "current-month" (incomeOf march) eq_refl eq_refl eq_refl)).
Defined.

Lemma statements_of_all_time_witness :
  (Forall (fun e => date e <> "") (accounting_entries (database (healthy march)))
   /\ answers (chartHealth (healthy march)) = true
   /\ answers (entriesHealth (healthy march)) = true)
  /\ BalanceSheet.loadBalanceSheet noStrings (healthy march) march25 "b1" "all"
       (sheetOf march) = emptySheet
  /\ IncomeStatement.loadIncomeStatement noStrings (healthy march) march25 "b1" "all"
       (incomeOf march) = emptyIncome.
Proof.
  assert (H : Forall (fun e => date e <> "") (accounting_entries (database (healthy march))))
    by decide_closed.
  split; [done|].
  exact (statements_of_all_time noStrings (healthy march) march25 "b1" (sheetOf march)
           (incomeOf march) H eq_refl eq_refl).
Defined.

(** ** The two statements and the lines behind them *)





Section Posted.

Variable parse : string -> Number.






End Posted.










(** ** The journal hook *)

Lemma withLines_ids (parse : string -> Number) (lines : list LineRow)
    (selected : list EntryRow) :
  AccountingEntry.id <$> (useAccountingEntries.withLines parse lines <$> selected)
  = id <$> selected.
Proof. rewrite <- list_fmap_compose. apply list_fmap_ext. reflexivity. Qed.

(** The hook has no partial outcome.  It throws exactly when the entries
    query fails, or entries were selected and the lines query fails, and it
    throws the error of that query; otherwise it returns one entry per
    selected row, in the order of the query.  With no selected entry it
    returns an empty list without querying the lines. *)
Theorem queryFn_outcome (parse : string -> Number) (supabase : Supabase)
    (options : useAccountingEntries.Options) :
  let selected := selectedEntries (database supabase) options in
  let outcome := useAccountingEntries.queryFn parse supabase options in
  (forall e, outcome = Throw e <->
             failure (entriesHealth supabase) = Some e
             \/ (entriesHealth supabase = Healthy /\ selected <> []
                 /\ failure (linesHealth supabase) = Some e))
  /\ (forall entries, outcome = Normal entries ->
                      AccountingEntry.id <$> entries = id <$> selected)
  /\ (entriesHealth supabase = Healthy -> selected = [] -> outcome = Normal []).
Proof.
  intros selected outcome. unfold outcome, useAccountingEntries.queryFn.
  fold (selectedEntries (database supabase) options). fold selected.
  destruct (entriesHealth supabase) as [|m|r];
    cbn -[selectLines useAccountingEntries.withLines].
  2:{ split_and!; [|discriminate | discriminate].
      intros e. split; [intros [= <-]; by left | intros [[= <-]|(? & _)]; done]. }
  2:{ split_and!; [|discriminate | discriminate].
      intros e. split; [intros [= <-]; by left | intros [[= <-]|(? & _)]; done]. }
  destruct selected as [|x selected'] eqn:Hsel.
  - split_and!; [|intros ? [= <-]; reflexivity | reflexivity].
    intros e. split; [discriminate | intros [?|(_ & ? & _)]; done].
  - destruct (linesHealth supabase) as [|m|r];
      cbn -[selectLines useAccountingEntries.withLines fmap].
    + split_and!; [| |discriminate].
      * intros e. split; [discriminate | intros [?|(_ & _ & ?)]; done].
      * intros entries [= <-]. exact (withLines_ids parse _ (x :: selected')).
    + split_and!; [|discriminate | discriminate].
      intros e. split; [intros [= <-]; by right | intros [?|(_ & _ & [= <-])]; done].
    + split_and!; [|discriminate | discriminate].
      intros e. split; [intros [= <-]; by right | intros [?|(_ & _ & [= <-])]; done].
Qed.

(** Each entry the hook returns carries exactly the journal lines of the
    table that reference it, in the order of the table, with both amounts
    coerced to finite numbers ([Number(x) || 0]). *)
Theorem queryFn_lines (parse : string -> Number) (supabase : Supabase)
    (options : useAccountingEntries.Options)
    (entries : list AccountingEntry.t) (entry : AccountingEntry.t) :
  useAccountingEntries.queryFn parse supabase options = Normal entries ->
  entry ∈ entries ->
  AccountingEntry.lines entry
  = useAccountingEntries.toLine parse
      <$> filter (fun l => entry_id l = AccountingEntry.id entry)
            (accounting_entry_lines (database supabase))
  /\ Forall (fun l => (exists d, AccountingEntryLine.debit l = Finite d)
                      /\ (exists c, AccountingEntryLine.credit l = Finite c))
       (AccountingEntry.lines entry).
Proof.
  intros Hquery Hentry.
  assert (Hfinite : forall ls : list LineRow,
             Forall (fun l => (exists d, AccountingEntryLine.debit l = Finite d)
                              /\ (exists c, AccountingEntryLine.credit l = Finite c))
               (useAccountingEntries.toLine parse <$> ls)).
  { intros ls. apply Forall_fmap, Forall_forall. intros l _.
    cbn [compose useAccountingEntries.toLine AccountingEntryLine.debit
           AccountingEntryLine.credit].
    rewrite !or_toNumber. eauto. }
  unfold useAccountingEntries.queryFn in Hquery.
  fold (selectedEntries (database supabase) options) in Hquery.
  destruct (entriesHealth supabase); [|discriminate | discriminate].
  cbn -[selectLines useAccountingEntries.withLines fmap] in Hquery.
  destruct (selectedEntries (database supabase) options) as [|x selected] eqn:Hsel.
  { injection Hquery as <-. by apply elem_of_nil in Hentry. }
  destruct (linesHealth supabase); [|discriminate | discriminate].
  cbn -[selectLines useAccountingEntries.withLines fmap] in Hquery.
  injection Hquery as <-.
  change (entry ∈ useAccountingEntries.withLines parse
                    (selectLines (id <$> x :: selected) (database supabase))
                    <$> x :: selected) in Hentry.
  apply list_elem_of_fmap in Hentry as (e & -> & He).
  unfold useAccountingEntries.withLines.
  cbn [AccountingEntry.lines AccountingEntry.id].
  split; [|apply Hfinite]. f_equal.
  unfold selectLines. apply list_filter_filter_l. intros l ->.
  by apply list_elem_of_fmap_2.
Qed.

(** ** The entry listing and its period *)

Lemma format_nonempty (d : JsDate) : format_yyyy_MM_dd d <> "".
Proof.
  unfold format_yyyy_MM_dd.
  destruct (addLeadingZeros (if (0 <? fullYear d)%Z then fullYear d else (1 - fullYear d)%Z) 4);
    discriminate.
Qed.

Lemma pageDates_nonempty (period : string) (clock : Clock) :
  (forall s, start (fst (getPeriodDates period clock)) = Some s -> s <> "")
  /\ (forall s, end_ (fst (getPeriodDates period clock)) = Some s -> s <> "").
Proof.
  unfold getPeriodDates. cbn [newDate fst].
  repeat case_decide; cbn [start end_]; split; intros s [= <-]; apply format_nonempty.
Qed.

Lemma truthyString_true (s : string) : s <> "" -> truthyString s = true.
Proof. intros Hs. unfold truthyString. by rewrite bool_decide_eq_false_2. Qed.

(** The entries the listing asks for are those of the selected business
    (all of them for [all] or an empty selection) whose date lies within the
    bounds the page resolved.  For a token the page does not recognize,
    [current-quarter], [last-year] and [all] among them, there is no bound:
    every entry of the business is listed, whatever its date. *)
Theorem listing_selection (db : Database) (clock : Clock)
    (selectedBusiness selectedPeriod : string) (e : EntryRow) :
  let listed :=
    e ∈ selectEntries
          (useAccountingEntries.entriesQuery
             (AccountingEntries.options clock selectedBusiness selectedPeriod)) db in
  (listed <->
   e ∈ accounting_entries db /\ ofBusiness selectedBusiness e
   /\ withinDates (fst (getPeriodDates selectedPeriod clock)) (date e))
  /\ (selectedPeriod ∉ recognizedByPage ->
      listed <-> e ∈ accounting_entries db /\ ofBusiness selectedBusiness e).
Proof.
  intros listed.
  assert (Hlisted : listed <->
            e ∈ accounting_entries db /\ ofBusiness selectedBusiness e
            /\ withinDates (fst (getPeriodDates selectedPeriod clock)) (date e)).
  { unfold listed, selectEntries, useAccountingEntries.entriesQuery,
      AccountingEntries.options, withinDates, ofBusiness, onOrBefore.
    cbn [useAccountingEntries.businessId useAccountingEntries.startDate
         useAccountingEntries.endDate].
    destruct (pageDates_nonempty selectedPeriod clock) as [Hstart Hend].
    rewrite list_elem_of_filter.
    destruct (start (fst (getPeriodDates selectedPeriod clock))) as [s|];
      destruct (end_ (fst (getPeriodDates selectedPeriod clock))) as [t|];
      rewrite ?(truthyString_true s) by (by apply Hstart);
      rewrite ?(truthyString_true t) by (by apply Hend);
      destruct (businessSelected selectedBusiness);
      cbn [app forallb entryMatches];
      rewrite ?andb_true_r, ?andb_true_iff, ?bool_decide_eq_true;
      split.
    all: try (intros (Hm & He); split; [exact He|]; split; [tauto|];
              split; intros ? [= <-]; tauto).
    all: try (intros (He & Hb & Hs & Ht); split; [|exact He];
              try specialize (Hb eq_refl); try specialize (Hs _ eq_refl);
              try specialize (Ht _ eq_refl); tauto).
    all: try (intros (Hm & He); split; [exact He|]; split; [tauto|];
              split; intros ? [=]; tauto).
    all: try (intros (Hm & He); split; [exact He|]; split; [intros [=]|];
              split; intros ? [= <-]; tauto).
  }
  split; [exact Hlisted|].
  intros Hnot. rewrite Hlisted. rewrite (getPeriodDates_default _ _ Hnot).
  unfold withinDates. cbn [start end_]. split; [tauto|].
  intros (He & Hb). split; [done|]. split; [done|]. split; intros ? [=].
Qed.

Lemma queryFn_outcome_witness :
  (entriesHealth Scenario.linesDown = Healthy
   /\ selectedEntries (database Scenario.linesDown)
        (Scenario.listingOf Scenario.january15 "current-month") = [])
  /\ useAccountingEntries.queryFn noStrings Scenario.linesDown
       (Scenario.listingOf Scenario.january15 "current-month") = Normal [].
Proof.
  split; [done|].
  exact (proj2 (proj2 (queryFn_outcome noStrings Scenario.linesDown
                         (Scenario.listingOf Scenario.january15 "current-month")))
           eq_refl eq_refl).
Defined.

Lemma queryFn_lines_witness :
  (useAccountingEntries.queryFn noStrings (healthy march)
     (Scenario.listingOf march25 "current-month")
   = Normal (useAccountingEntries.withLines noStrings
               (selectLines
                  (id <$> selectedEntries march (Scenario.listingOf march25 "current-month"))
                  march)
               <$> selectedEntries march (Scenario.listingOf march25 "current-month"))
   /\ Scenario.rentEntry
        ∈ useAccountingEntries.withLines noStrings
            (selectLines
               (id <$> selectedEntries march (Scenario.listingOf march25 "current-month"))
               march)
            <$> selectedEntries march (Scenario.listingOf march25 "current-month"))
  /\ AccountingEntry.lines Scenario.rentEntry
     = useAccountingEntries.toLine noStrings
         <$> filter (fun l => entry_id l = "E2") (accounting_entry_lines march).
Proof.
  assert (H1 := queryFn_healthy noStrings march (Scenario.listingOf march25 "current-month")).
  cbv zeta in H1. fold (selectedEntries march (Scenario.listingOf march25 "current-month")) in H1.
  assert (H2 : Scenario.rentEntry
                 ∈ useAccountingEntries.withLines noStrings
                     (selectLines
                        (id <$> selectedEntries march
                                  (Scenario.listingOf march25 "current-month"))
                        march)
                     <$> selectedEntries march (Scenario.listingOf march25 "current-month")).
  { apply list_elem_of_fmap_2. decide_closed. }
  split; [done|].
  exact (proj1 (queryFn_lines noStrings (healthy march)
                  (Scenario.listingOf march25 "current-month") _ Scenario.rentEntry H1 H2)).
Defined.

Lemma listing_selection_witness :
  ("current-quarter" ∉ recognizedByPage)
  /\ (entry "E0" "2024-01-10"
        ∈ selectEntries
            (useAccountingEntries.entriesQuery
               (AccountingEntries.options march25 "b1" "current-quarter")) ledger
      <-> entry "E0" "2024-01-10" ∈ accounting_entries ledger
          /\ ofBusiness "b1" (entry "E0" "2024-01-10")).
Proof.
  assert (H : "current-quarter" ∉ recognizedByPage) by decide_closed.
  split; [exact H|].
  exact (proj2 (listing_selection ledger march25 "b1" "current-quarter"
                  (entry "E0" "2024-01-10")) H).
Defined.

(** ** Formatted days and their order *)

Lemma ascii_compare_refl (c : ascii) : Ascii.compare c c = Eq.
Proof. unfold Ascii.compare. apply N.compare_refl. Qed.

Lemma compare_app_prefix (p s t : string) :
  String.compare (p +:+ s) (p +:+ t) = String.compare s t.
Proof.
  induction p as [|c p IH]; [reflexivity|].
  simpl. by rewrite ascii_compare_refl.
Qed.

Lemma compare_app_lt (a b s t : string) :
  String.length a = String.length b ->
  String.compare a b = Lt -> String.compare (a +:+ s) (b +:+ t) = Lt.
Proof.
  revert b. induction a as [|c a IH]; intros [|c' b] Hlen Hlt; try discriminate.
  simpl in *.
  destruct (Ascii.compare c c'); [|reflexivity | discriminate].
  apply IH; [by injection Hlen | exact Hlt].
Qed.

Lemma leb_of_compare_lt (s t : string) : String.compare s t = Lt -> String.leb s t = true.
Proof. intros H. unfold String.leb. by rewrite H. Qed.

Lemma leb_of_compare_eq (s t : string) : String.compare s t = Eq -> String.leb s t = true.
Proof. intros H. unfold String.leb. by rewrite H. Qed.

Lemma two_digits (n : Z) : (0 <= n <= 99)%Z -> String.length (addLeadingZeros n 2) = 2%nat.
Proof.
  revert n.
  assert (H : Forall (fun n => String.length (addLeadingZeros n 2) = 2%nat) (seqZ 0 100))
    by decide_closed.
  rewrite Forall_seqZ in H. intros n Hn. apply H. lia.
Qed.

Lemma two_digits_compare (a b : Z) :
  (0 <= a <= 99)%Z -> (0 <= b <= 99)%Z ->
  String.compare (addLeadingZeros a 2) (addLeadingZeros b 2) = Z.compare a b.
Proof.
  revert a b.
  assert (H : Forall (fun a =>
                        Forall (fun b => String.compare (addLeadingZeros a 2)
                                           (addLeadingZeros b 2) = Z.compare a b)
                          (seqZ 0 100)) (seqZ 0 100))
    by decide_closed.
  rewrite Forall_seqZ in H. intros a b Ha Hb.
  assert (Ha' := H a ltac:(lia)). rewrite Forall_seqZ in Ha'. apply Ha'. lia.
Qed.

Lemma compare_app_same_length (a b s t : string) :
  String.length a = String.length b ->
  String.compare (a +:+ s) (b +:+ t)
  = match String.compare a b with
    | Eq => String.compare s t
    | c => c
    end.
Proof.
  revert b. induction a as [|c a IH]; intros [|c' b] Hlen; try discriminate.
  - reflexivity.
  - simpl. destruct (Ascii.compare c c'); [|reflexivity | reflexivity].
    apply IH. by injection Hlen.
Qed.

Lemma four_digits_next (y : Z) :
  (1 <= y <= 9998)%Z ->
  String.length (addLeadingZeros y 4) = 4%nat
  /\ String.length (addLeadingZeros (y + 1) 4) = 4%nat
  /\ String.compare (addLeadingZeros y 4) (addLeadingZeros (y + 1) 4) = Lt.
Proof.
  revert y.
  assert (H : Forall (fun y => String.length (addLeadingZeros y 4) = 4%nat
                               /\ String.length (addLeadingZeros (y + 1) 4) = 4%nat
                               /\ String.compare (addLeadingZeros y 4)
                                    (addLeadingZeros (y + 1) 4) = Lt) (seqZ 1 9998))
    by decide_closed.
  rewrite Forall_seqZ in H. intros y Hy. apply H. lia.
Qed.

Lemma daysInMonth_bounds (y m : Z) : (28 <= daysInMonth y m <= 31)%Z.
Proof.
  unfold daysInMonth. repeat (destruct (_ =? _)%Z; simpl); destruct (isLeapYear y); lia.
Qed.

(** Two days of one year compare, once formatted, as their months and days
    do. *)
Lemma format_compare_in_year (d1 d2 : JsDate) :
  fullYear d1 = fullYear d2 -> printable d1 -> printable d2 ->
  String.compare (format_yyyy_MM_dd d1) (format_yyyy_MM_dd d2)
  = match Z.compare (month d1) (month d2) with
    | Eq => Z.compare (dayOfMonth d1) (dayOfMonth d2)
    | c => c
    end.
Proof.
  intros Hy [Hm1 Hd1] [Hm2 Hd2]. unfold format_yyyy_MM_dd. rewrite Hy.
  rewrite compare_app_prefix, (compare_app_prefix "-").
  rewrite compare_app_same_length by (rewrite !two_digits by lia; reflexivity).
  rewrite two_digits_compare by lia.
  rewrite (Z.add_comm (month d1) 1), (Z.add_comm (month d2) 1), Z.add_compare_mono_l.
  destruct (Z.compare (month d1) (month d2)); [|reflexivity | reflexivity].
  rewrite (compare_app_prefix "-"). apply two_digits_compare; lia.
Qed.

Lemma format_le_in_year (d1 d2 : JsDate) :
  fullYear d1 = fullYear d2 -> printable d1 -> printable d2 ->
  notAfterInYear d1 d2 ->
  String.leb (format_yyyy_MM_dd d1) (format_yyyy_MM_dd d2) = true.
Proof.
  intros Hy H1 H2 Hle. unfold String.leb.
  rewrite (format_compare_in_year d1 d2 Hy H1 H2).
  destruct Hle as [Hlt|[Heq Hle]].
  - by rewrite (proj2 (Z.compare_lt_iff _ _) Hlt).
  - rewrite Heq, Z.compare_refl. destruct (Z.compare_spec (dayOfMonth d1) (dayOfMonth d2));
      [reflexivity | reflexivity | lia].
Qed.

Lemma format_lt_next_year (d1 d2 : JsDate) :
  (1 <= fullYear d1 <= 9998)%Z -> fullYear d2 = (fullYear d1 + 1)%Z ->
  String.compare (format_yyyy_MM_dd d1) (format_yyyy_MM_dd d2) = Lt.
Proof.
  intros Hy Hnext. unfold format_yyyy_MM_dd. rewrite Hnext.
  destruct (four_digits_next (fullYear d1) Hy) as (Hl1 & Hl2 & Hlt).
  replace (0 <? fullYear d1)%Z with true by (symmetry; apply Z.ltb_lt; lia).
  replace (0 <? fullYear d1 + 1)%Z with true by (symmetry; apply Z.ltb_lt; lia).
  rewrite compare_app_same_length by congruence. by rewrite Hlt.
Qed.

(** The order of strings is transitive, and filtering keeps a list sorted. *)
Lemma ascii_compare_trans (a b c : ascii) (r : comparison) :
  Ascii.compare a b = r -> Ascii.compare b c = r -> Ascii.compare a c = r.
Proof.
  unfold Ascii.compare. destruct r.
  - rewrite !N.compare_eq_iff. congruence.
  - rewrite !N.compare_lt_iff. lia.
  - rewrite !N.compare_gt_iff. lia.
Qed.

Lemma ascii_compare_eq (a b : ascii) : Ascii.compare a b = Eq -> a = b.
Proof.
  unfold Ascii.compare. rewrite N.compare_eq_iff. intros H.
  rewrite <- (ascii_N_embedding a), <- (ascii_N_embedding b). by rewrite H.
Qed.

Lemma leb_trans (s t u : string) :
  String.leb s t = true -> String.leb t u = true -> String.leb s u = true.
Proof.
  unfold String.leb. revert t u.
  induction s as [|a s IH]; intros [|b t] [|c u]; cbn [String.compare]; try done.
  destruct (Ascii.compare a b) eqn:Hab; try done;
    destruct (Ascii.compare b c) eqn:Hbc; try done.
  - rewrite (ascii_compare_trans a b c Eq Hab Hbc). apply IH.
  - apply ascii_compare_eq in Hab as ->. by rewrite Hbc.
  - apply ascii_compare_eq in Hbc as <-. by rewrite Hab.
  - by rewrite (ascii_compare_trans a b c Lt Hab Hbc).
Qed.

Lemma StronglySorted_filter {A : Type} (R : relation A) (P : A -> Prop)
    `{forall x, Decision (P x)} (l : list A) :
  StronglySorted R l -> StronglySorted R (filter P l).
Proof.
  induction 1 as [|x l _ IH Hx]; [constructor|].
  rewrite filter_cons. case_decide; [|exact IH].
  constructor; [exact IH|]. apply Forall_forall. intros y Hy.
  apply list_elem_of_filter in Hy as [_ Hy]. by apply (proj1 (Forall_forall _ _) Hx).
Qed.

(** ** The resolved periods *)

Ltac calendar :=
  unfold printable, notAfterInYear, validDate, nowOf, startOfMonth, endOfMonth, startOfYear,
    endOfYear, startOfQuarter, endOfQuarter, subMonths, subYears, addMonths in *;
  cbn [fullYear month dayOfMonth timeOfDay] in *;
  repeat match goal with
         | |- context [daysInMonth ?y ?m] =>
             lazymatch goal with
             | _ : (28 <= daysInMonth y m <= 31)%Z |- _ => fail
             | _ => pose proof (daysInMonth_bounds y m)
             end
         | _ : context [daysInMonth ?y ?m] |- _ =>
             lazymatch goal with
             | _ : (28 <= daysInMonth y m <= 31)%Z |- _ => fail
             | _ => pose proof (daysInMonth_bounds y m)
             end
         end;
  try (Z.div_mod_to_equations; lia).

Ltac decide_tokens :=
  repeat match goal with
         | |- context [decide (?x = ?y)] =>
             first [ rewrite (decide_True (P := x = y)) by reflexivity
                   | rewrite (decide_False (P := x = y)) by discriminate ]
         end.

(** Whatever the token, the resolved start is not after the resolved end,
    in the order of strings by which the data layer compares dates. *)
Theorem range_ordered (period : string) (clock : Clock) :
  validDate (nowOf clock) ->
  let range := fst (getDateRangeFromPeriod period clock) in
  String.leb (startDate range) (endDate range) = true.
Proof.
  intros Hvalid range. unfold range, getDateRangeFromPeriod. cbn [newDate fst].
  fold (nowOf clock).
  repeat case_decide; cbn [startDate endDate]; try reflexivity;
    (apply format_le_in_year; [reflexivity | calendar | calendar | calendar]).
Qed.

(** The periods named after the present, and the one an unrecognized token
    falls back to, hold the present day. *)
Theorem today_in_range (period : string) (clock : Clock) :
  validDate (nowOf clock) ->
  period ∈ presentTokens \/ period ∉ recognized ->
  let range := fst (getDateRangeFromPeriod period clock) in
  String.leb (startDate range) (today clock) = true
  /\ String.leb (today clock) (endDate range) = true.
Proof.
  intros Hvalid Hperiod range. unfold range, today, getDateRangeFromPeriod.
  cbn [newDate fst]. fold (nowOf clock).
  assert (Hcases : period = "current-month" \/ period = "current-quarter"
                   \/ period = "current-year" \/ period ∉ recognized).
  { destruct Hperiod as [Hin|Hout]; [|tauto]. unfold presentTokens in Hin.
    rewrite !elem_of_cons, elem_of_nil in Hin. tauto. }
  destruct Hcases as [->|[->|[->|Hout]]].
  - decide_tokens. cbn [startDate endDate].
    split; apply format_le_in_year; try reflexivity; calendar.
  - decide_tokens. cbn [startDate endDate].
    split; apply format_le_in_year; try reflexivity; calendar.
    destruct (decide (month (instants clock (reads clock)) `mod` 3 = 2)%Z) as [Hend|Hend].
    + right.
      assert (E : (month (instants clock (reads clock))
                   - month (instants clock (reads clock)) `mod` 3 + 2
                   = month (instants clock (reads clock)))%Z) by lia.
      rewrite E. lia.
    + left. Z.div_mod_to_equations. lia.
  - decide_tokens. cbn [startDate endDate].
    split; apply format_le_in_year; try reflexivity; calendar.
  - repeat (case_decide as Hp;
            [exfalso; apply Hout; rewrite Hp; decide_closed | clear Hp]).
    cbn [startDate endDate].
    split; apply format_le_in_year; try reflexivity; calendar.
Qed.

(** The previous month ends before the current month starts, and the
    previous year before the current year, from the year 2 on. *)
Theorem previous_periods_before (clock : Clock) :
  validDate (nowOf clock) ->
  (2 <= fullYear (nowOf clock))%Z ->
  String.compare (endDate (fst (getDateRangeFromPeriod "last-month" clock)))
    (startDate (fst (getDateRangeFromPeriod "current-month" clock))) = Lt
  /\ String.compare (endDate (fst (getDateRangeFromPeriod "last-year" clock)))
       (startDate (fst (getDateRangeFromPeriod "current-year" clock))) = Lt.
Proof.
  intros Hvalid Hyear. unfold getDateRangeFromPeriod. cbn [newDate fst].
  decide_tokens. cbn [startDate endDate]. fold (nowOf clock). split.
  - destruct (decide (month (nowOf clock) = 0%Z)) as [Hjan|Hlater].
    + apply format_lt_next_year; calendar.
    + rewrite format_compare_in_year; [| calendar | calendar | calendar].
      replace (month (endOfMonth (subMonths (nowOf clock) 1))
               ?= month (startOfMonth (nowOf clock)))%Z with Lt; [reflexivity|].
      symmetry. apply Z.compare_lt_iff. calendar.
  - apply format_lt_next_year; calendar.
Qed.

(** For the three tokens the page recognizes, its own resolver starts where
    the shared one starts and never ends later: the two agree on
    [current-month] and [last-month], and for [current-year] the page stops
    at the present day where the shared resolver goes to 31 December. *)
Theorem page_period_within_shared (period : string) (clock : Clock) :
  validDate (nowOf clock) ->
  period ∈ recognizedByPage ->
  let page := fst (getPeriodDates period clock) in
  let shared := fst (getDateRangeFromPeriod period clock) in
  start page = Some (startDate shared)
  /\ exists e, end_ page = Some e
               /\ String.leb e (endDate shared) = true
               /\ e = (if decide (period = "current-year") then today clock
                       else endDate shared).
Proof.
  intros Hvalid Hperiod page shared.
  unfold page, shared, getPeriodDates, getDateRangeFromPeriod, today.
  cbn [newDate fst]. fold (nowOf clock).
  unfold recognizedByPage in Hperiod. rewrite !elem_of_cons, elem_of_nil in Hperiod.
  destruct Hperiod as [->|[->|[->|[]]]]; decide_tokens; cbn [start end_ startDate endDate];
    (split; [reflexivity|]); eexists; (split; [reflexivity|]);
    (split; [|reflexivity]); apply format_le_in_year; try reflexivity; calendar.
Qed.

Lemma range_ordered_witness :
  validDate (nowOf march25)
  /\ String.leb (startDate (fst (getDateRangeFromPeriod "current-quarter" march25)))
       (endDate (fst (getDateRangeFromPeriod "current-quarter" march25))) = true.
Proof.
  assert (H : validDate (nowOf march25)) by decide_closed.
  split; [exact H|]. exact (range_ordered "current-quarter" march25 H).
Defined.

Lemma today_in_range_witness :
  (validDate (nowOf march25) /\ "current-quarter" ∈ presentTokens)
  /\ String.leb (startDate (fst (getDateRangeFromPeriod "current-quarter" march25)))
       (today march25) = true
  /\ String.leb (today march25)
       (endDate (fst (getDateRangeFromPeriod "current-quarter" march25))) = true.
Proof.
  assert (H1 : validDate (nowOf march25)) by decide_closed.
  assert (H2 : "current-quarter" ∈ presentTokens) by decide_closed.
  split; [done|]. exact (today_in_range "current-quarter" march25 H1 (or_introl H2)).
Defined.

Lemma previous_periods_before_witness :
  (validDate (nowOf Scenario.january15) /\ (2 <= fullYear (nowOf Scenario.january15))%Z)
  /\ String.compare (endDate (fst (getDateRangeFromPeriod "last-month" Scenario.january15)))
       (startDate (fst (getDateRangeFromPeriod "current-month" Scenario.january15))) = Lt
  /\ String.compare (endDate (fst (getDateRangeFromPeriod "last-year" Scenario.january15)))
       (startDate (fst (getDateRangeFromPeriod "current-year" Scenario.january15))) = Lt.
Proof.
  assert (H1 : validDate (nowOf Scenario.january15)) by decide_closed.
  assert (H2 : (2 <= fullYear (nowOf Scenario.january15))%Z) by decide_closed.
  split; [done|]. exact (previous_periods_before Scenario.january15 H1 H2).
Defined.

Lemma page_period_within_shared_witness :
  (validDate (nowOf march25) /\ "current-year" ∈ recognizedByPage)
  /\ start (fst (getPeriodDates "current-year" march25))
     = Some (startDate (fst (getDateRangeFromPeriod "current-year" march25)))
  /\ exists e, end_ (fst (getPeriodDates "current-year" march25)) = Some e
               /\ String.leb e (endDate (fst (getDateRangeFromPeriod "current-year" march25)))
                  = true
               /\ e = (if decide ("current-year" = "current-year") then today march25
                       else endDate (fst (getDateRangeFromPeriod "current-year" march25))).
Proof.
  assert (H1 : validDate (nowOf march25)) by decide_closed.
  assert (H2 : "current-year" ∈ recognizedByPage) by decide_closed.
  split; [done|]. exact (page_period_within_shared "current-year" march25 H1 H2).
Defined.

Example previous_month_of_january :
  fst (getDateRangeFromPeriod "last-month" Scenario.january15)
  = {| startDate := "2023-12-01"; endDate := "2023-12-31" |}.
Proof. reflexivity. Qed.

(** ** The invoice and transaction hooks *)

Lemma resolved_bounds_nonempty (period : string) (clock : Clock) :
  period <> "all" ->
  truthyString (startDate (fst (getDateRangeFromPeriod period clock))) = true
  /\ truthyString (endDate (fst (getDateRangeFromPeriod period clock))) = true.
Proof.
  intros Hnot. unfold getDateRangeFromPeriod. cbn [newDate fst].
  repeat case_decide; try done; cbn [startDate endDate];
    split; apply truthyString_true, format_nonempty.
Qed.

Lemma unbounded_false (period : option string) :
  unbounded period = false ->
  exists p, period = Some p /\ truthyString p = true /\ p <> "all".
Proof.
  destruct period as [p|]; [|discriminate]. unfold unbounded.
  rewrite negb_false_iff, andb_true_iff, negb_true_iff, bool_decide_eq_false. eauto.
Qed.

Lemma invoices_query (options : useInvoices.Options) (clock : Clock) (row : InvoiceRow.t) :
  (forallb (useInvoices.matches row) (fst (useInvoices.query options clock)) = true <->
   ofOptionalBusiness (useInvoices.businessId options) (InvoiceRow.business_id row)
   /\ ofType (useInvoices.type options) (InvoiceRow.type row)
   /\ withinPeriod (useInvoices.period options) clock (InvoiceRow.date row))
  /\ snd (useInvoices.query options clock)
     = (if unbounded (useInvoices.period options) then clock
        else {| instants := instants clock; reads := S (reads clock) |}).
Proof.
  destruct options as [business period type].
  unfold useInvoices.query, ofOptionalBusiness, ofType, withinPeriod, onOrBefore.
  cbn [useInvoices.businessId useInvoices.period useInvoices.type].
  assert (Hbiz : forall rest,
             forallb (useInvoices.matches row)
               (match business with
                | Some b => if businessSelected b then [] ++ [useInvoices.BusinessIdEq b] else []
                | None => []
                end ++ rest) = true <->
             (forall b, business = Some b -> businessSelected b = true ->
                        InvoiceRow.business_id row = b)
             /\ forallb (useInvoices.matches row) rest = true).
  { intros rest. destruct business as [b|]; [destruct (businessSelected b) eqn:Hb|];
      cbn [app forallb useInvoices.matches];
      rewrite ?andb_true_iff, ?bool_decide_eq_true.
    - split; [intros [-> ?]; split; [by intros ? [= <-]|done] | intros [H ?]; eauto].
    - split; [intros ?; split; [intros ? [= <-]; congruence | done] | tauto].
    - split; [intros ?; split; [intros ? [=] | done] | tauto]. }
  assert (Htype : forall rest,
             forallb (useInvoices.matches row)
               (match type with
                | Some t => if truthyString t then [useInvoices.TypeEq t] else []
                | None => []
                end ++ rest) = true <->
             (forall t', type = Some t' -> t' <> "" -> InvoiceRow.type row = t')
             /\ forallb (useInvoices.matches row) rest = true).
  { intros rest. destruct type as [t|]; [destruct (decide (t = "")) as [->|Ht]|];
      rewrite ?(truthyString_true t) by done;
      cbn [truthyString app forallb useInvoices.matches];
      rewrite ?andb_true_iff, ?bool_decide_eq_true.
    - split; [intros ?; split; [intros ? [= <-]; congruence | done] | tauto].
    - split; [intros [-> ?]; split; [by intros ? [= <-]|done] | intros [H ?]; eauto].
    - split; [intros ?; split; [intros ? [=] | done] | tauto]. }
  set (base := match business with
               | Some b => if businessSelected b then [] ++ [useInvoices.BusinessIdEq b] else []
               | None => []
               end) in *.
  set (typed := match type with
                | Some t => if truthyString t then [useInvoices.TypeEq t] else []
                | None => []
                end) in *.
  assert (Hshape : forall dates,
             (match type with
              | Some t => if truthyString t then base ++ [useInvoices.TypeEq t] else base
              | None => base
              end) ++ dates = base ++ typed ++ dates).
  { intros dates. unfold typed. destruct type as [t|]; [destruct (truthyString t)|];
      by rewrite <- ?app_assoc. }
  destruct (unbounded period) eqn:Hun.
  - destruct period as [p|]; [unfold unbounded in Hun; rewrite negb_true_iff in Hun;
                              rewrite Hun|];
      cbn [fst snd]; (split; [|reflexivity]);
      rewrite <- (app_nil_r (match type with Some _ => _ | None => _ end)), Hshape,
        Hbiz, Htype; cbn [forallb]; split; try tauto.
    all: intros (? & ? & ?); split_and!; try done.
  - destruct (unbounded_false period Hun) as (p & -> & Hp & Hall).
    rewrite Hp, (bool_decide_eq_false_2 _ Hall). cbn [andb negb].
    destruct (resolved_bounds_nonempty p clock Hall) as [Hs He].
    change (getDateRangeFromPeriod p clock)
      with (fst (getDateRangeFromPeriod p clock),
            {| instants := instants clock; reads := S (reads clock) |}).
    cbv iota beta zeta. rewrite Hs, He. cbn [fst snd]. split; [|reflexivity].
    rewrite <- app_assoc, Hshape, Hbiz, Htype.
    cbn [app forallb useInvoices.matches]. rewrite ?andb_true_iff, ?andb_true_r.
    split.
    + intros (? & ? & ? & ? & _). split_and!; try done. intros _ ? [= <-]. done.
    + intros (? & ? & Hd). destruct (Hd eq_refl p eq_refl). split_and!; done.
Qed.

(** [useInvoices] throws exactly when its query fails, with the error of the
    query.  When the query answers, it returns the invoices of the selected
    business and type whose date lies within the resolved period; for no
    period, an empty one or [all] there is no date bound and the clock is
    not read, for any other token the clock is read exactly once.  The rows
    come latest date first. *)
Theorem useInvoices_result (health : Health) (invoices : list InvoiceRow.t)
    (options : useInvoices.Options) (clock : Clock) :
  let outcome := fst (useInvoices.queryFn health invoices options clock) in
  snd (useInvoices.queryFn health invoices options clock)
    = (if unbounded (useInvoices.period options) then clock
       else {| instants := instants clock; reads := S (reads clock) |})
  /\ (forall e, outcome = Throw e <-> failure health = Some e)
  /\ (health = Healthy ->
      exists rows,
        outcome = Normal (Some rows)
        /\ StronglySorted useInvoices.dateGe rows
        /\ forall row,
             row ∈ rows <->
             row ∈ invoices
             /\ ofOptionalBusiness (useInvoices.businessId options) (InvoiceRow.business_id row)
             /\ ofType (useInvoices.type options) (InvoiceRow.type row)
             /\ withinPeriod (useInvoices.period options) clock (InvoiceRow.date row)).
Proof.
  intros outcome. unfold outcome, useInvoices.queryFn.
  pose proof (fun row => proj1 (invoices_query options clock row)) as Hrows.
  pose proof (proj2 (invoices_query options clock
                       {| InvoiceRow.id := ""; InvoiceRow.date := "";
                          InvoiceRow.invoice_number := ""; InvoiceRow.business_id := "";
                          InvoiceRow.type := ""; InvoiceRow.client_supplier := "";
                          InvoiceRow.ruc := None; InvoiceRow.subtotal := Null;
                          InvoiceRow.igv := Null; InvoiceRow.total := Null |})) as Hclock.
  destruct (useInvoices.query options clock) as [filters clock'].
  cbn [fst snd] in *. split; [exact Hclock|]. split.
  - intros e. destruct health; cbn; split; try discriminate; intros [= <-]; reflexivity.
  - intros ->. cbn -[useInvoices.select]. eexists. split; [reflexivity|].
    unfold useInvoices.select. split.
    { apply StronglySorted_merge_sort.
      - intros a b c Hab Hbc. exact (leb_trans _ _ _ Hbc Hab).
      - intros a b. destruct (String.leb_total (InvoiceRow.date a) (InvoiceRow.date b));
          [by right | by left]. }
    intros row.
    rewrite merge_sort_Permutation, list_elem_of_filter, Hrows. tauto.
Qed.

Lemma transactions_query (options : useTransactions.Options) (clock : Clock)
    (row : TransactionRow.t) :
  (forallb (useTransactions.matches row) (fst (useTransactions.query options clock)) = true <->
   ofOptionalBusiness (useTransactions.businessId options) (TransactionRow.business_id row)
   /\ withinPeriod (useTransactions.period options) clock (TransactionRow.date row))
  /\ snd (useTransactions.query options clock)
     = (if unbounded (useTransactions.period options) then clock
        else {| instants := instants clock; reads := S (reads clock) |}).
Proof.
  destruct options as [business period].
  unfold useTransactions.query, ofOptionalBusiness, withinPeriod, onOrBefore.
  cbn [useTransactions.businessId useTransactions.period].
  assert (Hbiz : forall rest,
             forallb (useTransactions.matches row)
               (match business with
                | Some b =>
                    if businessSelected b then [] ++ [useTransactions.BusinessIdEq b] else []
                | None => []
                end ++ rest) = true <->
             (forall b, business = Some b -> businessSelected b = true ->
                        TransactionRow.business_id row = b)
             /\ forallb (useTransactions.matches row) rest = true).
  { intros rest. destruct business as [b|]; [destruct (businessSelected b) eqn:Hb|];
      cbn [app forallb useTransactions.matches];
      rewrite ?andb_true_iff, ?bool_decide_eq_true.
    - split; [intros [-> ?]; split; [by intros ? [= <-]|done] | intros [H ?]; eauto].
    - split; [intros ?; split; [intros ? [= <-]; congruence | done] | tauto].
    - split; [intros ?; split; [intros ? [=] | done] | tauto]. }
  destruct (unbounded period) eqn:Hun.
  - destruct period as [p|]; [unfold unbounded in Hun; rewrite negb_true_iff in Hun;
                              rewrite Hun|];
      cbn [fst snd]; (split; [|reflexivity]);
      rewrite <- (app_nil_r (match business with Some _ => _ | None => _ end)), Hbiz;
      cbn [forallb]; split; try tauto.
    all: intros (? & ?); split_and!; done.
  - destruct (unbounded_false period Hun) as (p & -> & Hp & Hall).
    rewrite Hp, (bool_decide_eq_false_2 _ Hall). cbn [andb negb].
    destruct (resolved_bounds_nonempty p clock Hall) as [Hs He].
    change (getDateRangeFromPeriod p clock)
      with (fst (getDateRangeFromPeriod p clock),
            {| instants := instants clock; reads := S (reads clock) |}).
    cbv iota beta zeta. rewrite Hs, He. cbn [fst snd]. split; [|reflexivity].
    rewrite <- app_assoc, Hbiz.
    cbn [app forallb useTransactions.matches]. rewrite ?andb_true_iff, ?andb_true_r.
    split.
    + intros (? & ? & ? & _). split_and!; try done. intros _ ? [= <-]. done.
    + intros (? & Hd). destruct (Hd eq_refl p eq_refl). split_and!; done.
Qed.

(** [useTransactions] behaves alike: it throws exactly when its query fails,
    and otherwise returns the transactions of the selected business whose
    date lies within the resolved period, latest date first, reading the
    clock once when a period bounds the dates and not at all for no period,
    an empty one or [all]. *)
Theorem useTransactions_result (health : Health) (transactions : list TransactionRow.t)
    (options : useTransactions.Options) (clock : Clock) :
  let outcome := fst (useTransactions.queryFn health transactions options clock) in
  snd (useTransactions.queryFn health transactions options clock)
    = (if unbounded (useTransactions.period options) then clock
       else {| instants := instants clock; reads := S (reads clock) |})
  /\ (forall e, outcome = Throw e <-> failure health = Some e)
  /\ (health = Healthy ->
      exists rows,
        outcome = Normal (Some rows)
        /\ StronglySorted useTransactions.dateGe rows
        /\ forall row,
             row ∈ rows <->
             row ∈ transactions
             /\ ofOptionalBusiness (useTransactions.businessId options)
                  (TransactionRow.business_id row)
             /\ withinPeriod (useTransactions.period options) clock
                  (TransactionRow.date row)).
Proof.
  intros outcome. unfold outcome, useTransactions.queryFn.
  pose proof (fun row => proj1 (transactions_query options clock row)) as Hrows.
  pose proof (proj2 (transactions_query options clock
                       {| TransactionRow.id := ""; TransactionRow.date := "";
                          TransactionRow.business_id := "";
                          TransactionRow.category := None;
                          TransactionRow.columns := ∅ |})) as Hclock.
  destruct (useTransactions.query options clock) as [filters clock'].
  cbn [fst snd] in *. split; [exact Hclock|]. split.
  - intros e. destruct health; cbn; split; try discriminate; intros [= <-]; reflexivity.
  - intros ->. cbn -[useTransactions.select]. eexists. split; [reflexivity|].
    unfold useTransactions.select. split.
    { apply StronglySorted_merge_sort.
      - intros a b c Hab Hbc. exact (leb_trans _ _ _ Hbc Hab).
      - intros a b.
        destruct (String.leb_total (TransactionRow.date a) (TransactionRow.date b));
          [by right | by left]. }
    intros row.
    rewrite merge_sort_Permutation, list_elem_of_filter, Hrows. tauto.
Qed.

Lemma useInvoices_result_witness :
  exists rows,
    fst (useInvoices.queryFn Healthy Scenario.invoices Scenario.salesOfMonth march25)
      = Normal (Some rows)
    /\ StronglySorted useInvoices.dateGe rows
    /\ forall row,
         row ∈ rows <->
         row ∈ Scenario.invoices
         /\ ofOptionalBusiness (Some "b1") (InvoiceRow.business_id row)
         /\ ofType (Some "sale") (InvoiceRow.type row)
         /\ withinPeriod (Some "current-month") march25 (InvoiceRow.date row).
Proof.
  exact (proj2 (proj2 (useInvoices_result Healthy Scenario.invoices
                         Scenario.salesOfMonth march25)) eq_refl).
Defined.

Lemma useTransactions_result_witness :
  exists rows,
    fst (useTransactions.queryFn Healthy Scenario.transactions Scenario.ofLastYear march25)
      = Normal (Some rows)
    /\ StronglySorted useTransactions.dateGe rows
    /\ forall row,
         row ∈ rows <->
         row ∈ Scenario.transactions
         /\ ofOptionalBusiness (Some "all") (TransactionRow.business_id row)
         /\ withinPeriod (Some "last-year") march25 (TransactionRow.date row).
Proof.
  exact (proj2 (proj2 (useTransactions_result Healthy Scenario.transactions
                         Scenario.ofLastYear march25)) eq_refl).
Defined.

(** In March 2024 the sales of business [b1] are the single invoice [F2]. *)
Example sales_of_month :
  fst (useInvoices.queryFn Healthy Scenario.invoices Scenario.salesOfMonth march25)
  = Normal (Some [Scenario.invoice "F2" "2024-03-05" "b1" "sale"]).
Proof. vm_compute. reflexivity. Qed.

(** ** Order of what is shown *)

Lemma selectAccounts_sorted (types : list string) (db : Database) :
  StronglySorted codeLe (selectAccounts types db).
Proof.
  apply StronglySorted_merge_sort.
  - intros a b c. apply leb_trans.
  - intros a b. apply String.leb_total.
Qed.

Lemma section_sorted (type : string) (row : ChartRow -> AccountBalance.t)
    (accounts : list ChartRow) :
  (forall a, AccountBalance.code (row a) = code a) ->
  StronglySorted codeLe accounts ->
  StronglySorted codeOrder (section type row accounts).
Proof.
  intros Hrow Hsorted. unfold section.
  apply StronglySorted_filter.
  apply (StronglySorted_fmap row codeLe codeOrder).
  - intros a b. unfold codeLe, codeOrder. by rewrite !Hrow.
  - by apply StronglySorted_filter.
Qed.

Lemma group_sorted (items : list AccountBalance.t) (cat : string)
    (rows : list AccountBalance.t) :
  StronglySorted codeOrder items ->
  groupByCategory items !! cat = Some rows ->
  StronglySorted codeOrder rows.
Proof.
  intros Hsorted. rewrite groupByCategory_lookup.
  pose proof (StronglySorted_filter codeOrder
                (fun r => AccountBalance.category r = cat) items Hsorted) as Hf.
  destruct (filter _ items); [discriminate|]. by intros [= <-].
Qed.

(** When the data layer answers, every list of rows a statement holds is in
    ascending order of account code, and so is every category group the
    statement shows: grouping keeps the order of the query. *)
Theorem statement_rows_ordered (parse : string -> Number) (db : Database) (clock : Clock)
    (businessId period : string) (bsState : BalanceSheet.State) (isState : IncomeStatement.State) :
  let sheet := BalanceSheet.loadBalanceSheet parse (healthy db) clock businessId period bsState in
  let income :=
    IncomeStatement.loadIncomeStatement parse (healthy db) clock businessId period isState in
  Forall (StronglySorted codeOrder)
    [BalanceSheet.assetAccounts sheet; BalanceSheet.liabilityAccounts sheet;
     BalanceSheet.equityAccounts sheet; IncomeStatement.incomeAccounts income;
     IncomeStatement.expenseAccounts income]
  /\ Forall (fun groups : gmap string (list AccountBalance.t) =>
               forall cat rows, groups !! cat = Some rows -> StronglySorted codeOrder rows)
       [BalanceSheet.groupedAssets (BalanceSheet.report sheet);
        BalanceSheet.groupedLiabilities (BalanceSheet.report sheet);
        IncomeStatement.groupedIncome (IncomeStatement.report income);
        IncomeStatement.groupedExpenses (IncomeStatement.report income)].
Proof.
  intros sheet income.
  destruct (BalanceSheet_load_healthy parse db clock businessId period bsState)
    as (bb & _ & Hsheet).
  destruct (IncomeStatement_load_healthy parse db clock businessId period isState)
    as (ib & _ & Hincome).
  fold sheet in Hsheet. fold income in Hincome.
  assert (Hd : forall balances type accounts,
             StronglySorted codeLe accounts ->
             StronglySorted codeOrder (section type (debitNormal balances) accounts))
    by (intros; by apply section_sorted).
  assert (Hc : forall balances type accounts,
             StronglySorted codeLe accounts ->
             StronglySorted codeOrder (section type (creditNormal balances) accounts))
    by (intros; by apply section_sorted).
  pose proof (selectAccounts_sorted ["asset"; "liability"; "equity"] db) as Hs.
  pose proof (selectAccounts_sorted ["income"; "expense"] db) as Hi.
  assert (Hrows : Forall (StronglySorted codeOrder)
            [BalanceSheet.assetAccounts sheet; BalanceSheet.liabilityAccounts sheet;
             BalanceSheet.equityAccounts sheet; IncomeStatement.incomeAccounts income;
             IncomeStatement.expenseAccounts income]).
  { rewrite Hsheet, Hincome.
    cbn [BalanceSheet.assetAccounts BalanceSheet.liabilityAccounts
           BalanceSheet.equityAccounts IncomeStatement.incomeAccounts
           IncomeStatement.expenseAccounts].
    repeat constructor; auto. }
  split; [exact Hrows|].
  inversion_clear Hrows as [|? ? Ha Hrows1]. inversion_clear Hrows1 as [|? ? Hl Hrows2].
  inversion_clear Hrows2 as [|? ? _ Hrows3]. inversion_clear Hrows3 as [|? ? Hn Hrows4].
  inversion_clear Hrows4 as [|? ? He _].
  repeat constructor; intros cat rows; apply group_sorted; assumption.
Qed.

(** The entries the journal hook returns come latest date first, whatever
    the selection. *)
Theorem listing_latest_first (parse : string -> Number) (supabase : Supabase)
    (options : useAccountingEntries.Options) (entries : list AccountingEntry.t) :
  useAccountingEntries.queryFn parse supabase options = Normal entries ->
  StronglySorted latestFirst entries.
Proof.
  unfold useAccountingEntries.queryFn.
  fold (selectedEntries (database supabase) options).
  assert (Hsel : StronglySorted dateGe (selectedEntries (database supabase) options)).
  { apply StronglySorted_merge_sort.
    - intros a b c Hab Hbc. exact (leb_trans _ _ _ Hbc Hab).
    - intros a b. destruct (String.leb_total (date a) (date b)); [by right | by left]. }
  destruct (entriesHealth supabase); [|discriminate | discriminate].
  cbn -[selectLines useAccountingEntries.withLines].
  destruct (selectedEntries (database supabase) options) as [|x selected] eqn:Heq.
  { intros [= <-]. constructor. }
  destruct (linesHealth supabase); [|discriminate | discriminate].
  cbn -[selectLines useAccountingEntries.withLines fmap].
  intros [= <-].
  change (StronglySorted latestFirst
            (useAccountingEntries.withLines parse
               (selectLines (id <$> x :: selected) (database supabase))
               <$> x :: selected)).
  apply (StronglySorted_fmap _ dateGe latestFirst); [|exact Hsel].
  intros a b Hab. exact Hab.
Qed.

Lemma statement_rows_ordered_witness :
  StronglySorted codeOrder (BalanceSheet.assetAccounts (sheetOf ledger)).
Proof.
  exact (Forall_inv (proj1 (statement_rows_ordered noStrings ledger march25 "all"
                              "current-month" BalanceSheet.initial
                              IncomeStatement.initial))).
Defined.

Lemma listing_latest_first_witness :
  useAccountingEntries.queryFn noStrings (healthy ledger)
    (Scenario.listingOf march25 "current-year")
  = Normal (useAccountingEntries.withLines noStrings
              (selectLines
                 (id <$> selectedEntries ledger (Scenario.listingOf march25 "current-year"))
                 ledger)
              <$> selectedEntries ledger (Scenario.listingOf march25 "current-year"))
  /\ StronglySorted latestFirst
       (useAccountingEntries.withLines noStrings
          (selectLines
             (id <$> selectedEntries ledger (Scenario.listingOf march25 "current-year"))
             ledger)
          <$> selectedEntries ledger (Scenario.listingOf march25 "current-year")).
Proof.
  assert (H := queryFn_healthy noStrings ledger (Scenario.listingOf march25 "current-year")).
  cbv zeta in H.
  fold (selectedEntries ledger (Scenario.listingOf march25 "current-year")) in H.
  split; [exact H|].
  exact (listing_latest_first noStrings (healthy ledger)
           (Scenario.listingOf march25 "current-year") _ H).
Defined.
